(** * The intelligence-gathering core of [server.js]

    A shallow embedding of [AIIntelligenceService]: the search cache, the two
    source adapters ([searchNewsAPI], [searchArxiv]), the relevance score
    ([calculateRelevance]) and the aggregator ([searchWebSources]), followed
    by the properties of that code.

    Conventions of the embedding.
    - A JavaScript string is a [string]; the model covers ASCII text, on which
      [toLowerCase] only moves [A-Z].
    - A JavaScript number that is a count or a quotient of counts is a [nat]
      or a [Q]; a time value (milliseconds since the epoch) is a [Z].
    - A statement that can throw returns an [outcome]; a promise that has
      settled is a [settled].
    - What the process observes of the outside (environment variables, the
      clock, the two HTTP replies) is passed in explicitly; the requests sent
      are returned with the result.  Logging is left out. *)

From Stdlib Require Import ZArith QArith Qminmax String Ascii List Lia.
From stdpp Require Import gmap strings list.

Open Scope string_scope.
Open Scope list_scope.

(** ** Exceptions and settled promises *)

Inductive js_error : Type :=
| SyntaxError (message : string)
| TypeError (message : string)
| RequestError (message : string)
| Error (message : string).

Inductive outcome (A : Type) : Type :=
| Returned (a : A)
| Thrown (e : js_error).
Arguments Returned {A} a.
Arguments Thrown {A} e.

#[global] Instance outcome_ret : MRet outcome := fun A a => Returned a.

#[global] Instance outcome_bind : MBind outcome := fun A B k x =>
  match x with
  | Returned a => k a
  | Thrown e => Thrown e
  end.

#[global] Instance outcome_fmap : FMap outcome := fun A B f x =>
  match x with
  | Returned a => Returned (f a)
  | Thrown e => Thrown e
  end.

(** [try { body } catch (error) { handler }] *)
Definition try_catch {A : Type} (body : outcome A) (handler : js_error -> outcome A)
  : outcome A :=
  match body with
  | Returned a => Returned a
  | Thrown e => handler e
  end.

Inductive settled (A : Type) : Type :=
| Fulfilled (value : A)
| Rejected (reason : js_error).
Arguments Fulfilled {A} value.
Arguments Rejected {A} reason.

(** An [async] function settles with what its body returned or threw. *)
Definition settle {A : Type} (x : outcome A) : settled A :=
  match x with
  | Returned a => Fulfilled a
  | Thrown e => Rejected e
  end.

(** ** String primitives *)

Definition toLowerCase_char (c : ascii) : ascii :=
  let n := nat_of_ascii c in
  if (65 <=? n)%nat && (n <=? 90)%nat then ascii_of_nat (n + 32) else c.

Fixpoint toLowerCase (s : string) : string :=
  match s with
  | EmptyString => EmptyString
  | String c s' => String (toLowerCase_char c) (toLowerCase s')
  end.

(** [s.split(' ')]: the pieces between single spaces; never the empty array. *)
Fixpoint split_space (s : string) : list string :=
  match s with
  | EmptyString => [EmptyString]
  | String c s' =>
      if Ascii.eqb c " " then EmptyString :: split_space s'
      else match split_space s' with
           | w :: ws => String c w :: ws
           | [] => [String c EmptyString]
           end
  end.

(** [s.includes(t)] *)
Fixpoint includes (s t : string) : bool :=
  String.prefix t s ||
  match s with
  | EmptyString => false
  | String _ s' => includes s' t
  end.

(** [s.substring(0, n)] *)
Definition substring0 (n : nat) (s : string) : string := String.substring 0 n s.

Definition is_white_space (c : ascii) : bool :=
  let n := nat_of_ascii c in
  (n =? 32)%nat || ((9 <=? n)%nat && (n <=? 13)%nat).

Fixpoint trimStart (s : string) : string :=
  match s with
  | EmptyString => EmptyString
  | String c s' => if is_white_space c then trimStart s' else s
  end.

Fixpoint trimEnd (s : string) : string :=
  match s with
  | EmptyString => EmptyString
  | String c s' =>
      match trimEnd s' with
      | EmptyString => if is_white_space c then EmptyString else String c EmptyString
      | t => String c t
      end
  end.

(** [s.trim()] *)
Definition trim (s : string) : string := trimEnd (trimStart s).

(** ** Regular expressions

    [new RegExp(word, 'g')] reads the word as a pattern, not as literal text.
    The fragment interpreted here is a sequence of terms, each a character or
    [.] with an optional quantifier [*], [+], [?] (lazy when followed by [?]).
    A word that uses another syntax character ([^ $ \ ( ) [ ] { } |]) is left
    to the host's engine, [RegExp_host]. *)

Inductive atom : Type :=
| AChar (c : ascii)
| ADot.

Inductive quantifier : Type :=
| Once
| Optional (greedy : bool)
| Star (greedy : bool)
| Plus (greedy : bool).

Record term : Type := Term { term_atom : atom; term_quantifier : quantifier }.

Definition pattern : Type := list term.

Inductive parsed : Type :=
| Pattern (p : pattern)
| Invalid (message : string)
| Extended.

Definition is_quantifier_char (c : ascii) : bool :=
  Ascii.eqb c "*" || Ascii.eqb c "+" || Ascii.eqb c "?".

Definition is_other_syntax_char (c : ascii) : bool :=
  existsb (Ascii.eqb c) (list_ascii_of_string "^$\()[]{}|").

Definition to_atom (c : ascii) : atom :=
  if Ascii.eqb c "." then ADot else AChar c.

Definition add_term (a : atom) (q : quantifier) (rest : parsed) : parsed :=
  match rest with
  | Pattern p => Pattern (Term a q :: p)
  | other => other
  end.

(** The quantifier a quantifier character stands for. *)
Definition quantifier_of (c : ascii) (greedy : bool) : quantifier :=
  if Ascii.eqb c "?" then Optional greedy
  else if Ascii.eqb c "*" then Star greedy
  else Plus greedy.

Fixpoint parse_pattern (s : string) : parsed :=
  match s with
  | EmptyString => Pattern []
  | String c s1 =>
      if is_quantifier_char c then Invalid "Nothing to repeat"
      else if is_other_syntax_char c then Extended
      else
        let a := to_atom c in
        match s1 with
        | String c1 s2 =>
            if is_quantifier_char c1 then
              match s2 with
              | String c2 s3 =>
                  if Ascii.eqb c2 "?"
                  then add_term a (quantifier_of c1 false) (parse_pattern s3)
                  else add_term a (quantifier_of c1 true) (parse_pattern s2)
              | EmptyString => add_term a (quantifier_of c1 true) (parse_pattern s2)
              end
            else add_term a Once (parse_pattern s1)
        | EmptyString => add_term a Once (parse_pattern s1)
        end
  end.

Definition is_line_terminator (c : ascii) : bool :=
  Ascii.eqb c "010" || Ascii.eqb c "013".

Definition atom_matches (a : atom) (c : ascii) : bool :=
  match a with
  | AChar x => Ascii.eqb x c
  | ADot => negb (is_line_terminator c)
  end.

(** The matchers return the length of the match that the backtracking search
    finds first at the start of [s], [k] being the match of the rest of the
    pattern. *)
Definition match_one (a : atom) (k : string -> option nat) (s : string) : option nat :=
  match s with
  | String c s' => if atom_matches a c then S <$> k s' else None
  | EmptyString => None
  end.

Definition or_else (x y : option nat) : option nat :=
  match x with
  | Some n => Some n
  | None => y
  end.

Fixpoint match_star (a : atom) (greedy : bool) (k : string -> option nat) (s : string)
  : option nat :=
  match s with
  | String c s' =>
      if atom_matches a c then
        if greedy then or_else (S <$> match_star a greedy k s') (k s)
        else or_else (k s) (S <$> match_star a greedy k s')
      else k s
  | EmptyString => k s
  end.

Fixpoint match_here (p : pattern) (s : string) : option nat :=
  match p with
  | [] => Some 0%nat
  | Term a q :: p' =>
      let k := match_here p' in
      match q with
      | Once => match_one a k s
      | Optional true => or_else (match_one a k s) (k s)
      | Optional false => or_else (k s) (match_one a k s)
      | Star greedy => match_star a greedy k s
      | Plus greedy => match_one a (match_star a greedy k) s
      end
  end.

(** [text.match(re)] with the [g] flag: the search restarts where the last
    match ended, one character further after an empty match, until no match
    is found.  [skip] characters belong to the match just found.  The value
    is the length of the array of matches ([0] for [null]). *)
Fixpoint count_matches (p : pattern) (s : string) (skip : nat) : nat :=
  match skip with
  | S n =>
      match s with
      | String _ s' => count_matches p s' n
      | EmptyString => 0
      end
  | O =>
      match match_here p s with
      | Some len =>
          S (match s with
             | String _ s' => count_matches p s' (Nat.pred len)
             | EmptyString => 0
             end)
      | None =>
          match s with
          | String _ s' => count_matches p s' 0
          | EmptyString => 0
          end
      end
  end.

(** The part of the process environment the service reads. *)
Record Env : Type := {
  NEWS_API_KEY : option string;
  (** the engine's verdict on a pattern outside the fragment: a syntax error,
      or the number of matches in each text *)
  RegExp_host : string -> option (string -> nat)
}.

(** [(textLower.match(new RegExp(word, 'g')) || []).length] *)
Definition matches_of (env : Env) (word textLower : string) : outcome nat :=
  match parse_pattern word with
  | Pattern p => Returned (count_matches p textLower 0)
  | Invalid message => Thrown (SyntaxError message)
  | Extended =>
      match RegExp_host env word with
      | Some count => Returned (count textLower)
      | None => Thrown (SyntaxError "Invalid regular expression")
      end
  end.

(** ** Relevance score *)

(** [queryWords.forEach(word => { score += matches })] *)
Fixpoint forEach_word (env : Env) (queryWords : list string) (textLower : string)
  (score : nat) : outcome nat :=
  match queryWords with
  | [] => Returned score
  | word :: rest =>
      matches ← matches_of env word textLower;
      forEach_word env rest textLower (score + matches)
  end.

Definition calculateRelevance (env : Env) (text query : string) : outcome Q :=
  let queryWords := split_space (toLowerCase query) in
  let textLower := toLowerCase text in
  score ← forEach_word env queryWords textLower 0;
  Returned (Qmin (inject_Z (Z.of_nat score) / inject_Z (Z.of_nat (length queryWords))) 1).

(** ** Dates

    [new Date(t).toISOString()] for a time value [t]; the civil date comes
    from the day number by the usual era computation of the proleptic
    Gregorian calendar. *)

Open Scope Z_scope.

Definition msPerDay : Z := 24 * 60 * 60 * 1000.

Definition civil_from_days (days : Z) : Z * Z * Z :=
  let z := days + 719468 in
  let era := z / 146097 in
  let doe := z - era * 146097 in
  let yoe := (doe - doe / 1460 + doe / 36524 - doe / 146096) / 365 in
  let doy := doe - (365 * yoe + yoe / 4 - yoe / 100) in
  let mp := (5 * doy + 2) / 153 in
  let d := doy - (153 * mp + 2) / 5 + 1 in
  let m := if mp <? 10 then mp + 3 else mp - 9 in
  let y := yoe + era * 400 + (if m <=? 2 then 1 else 0) in
  (y, m, d).

Definition digit (n : Z) : ascii := ascii_of_nat (48 + Z.to_nat (n mod 10)).

Fixpoint padded (width : nat) (n : Z) : string :=
  match width with
  | O => EmptyString
  | S w => padded w (n / 10) +:+ String (digit n) EmptyString
  end.

Definition iso_year (y : Z) : string :=
  if (0 <=? y) && (y <=? 9999) then padded 4 y
  else (if y <? 0 then "-" else "+") +:+ padded 6 (Z.abs y).

Definition toISOString (t : Z) : string :=
  let '(y, m, d) := civil_from_days (t / msPerDay) in
  let ms := t mod msPerDay in
  iso_year y +:+ "-" +:+ padded 2 m +:+ "-" +:+ padded 2 d +:+ "T" +:+
  padded 2 (ms / 3600000) +:+ ":" +:+ padded 2 (ms / 60000 mod 60) +:+ ":" +:+
  padded 2 (ms / 1000 mod 60) +:+ "." +:+ padded 3 (ms mod 1000) +:+ "Z".

(** [s.split('T')[0]] *)
Fixpoint before_T (s : string) : string :=
  match s with
  | EmptyString => EmptyString
  | String c s' => if Ascii.eqb c "T" then EmptyString else String c (before_T s')
  end.

(** [now] is the value of [new Date()] in the call. *)
Definition getDateFromTimeFrame (now : Z) (timeFrame : string) : string :=
  if String.eqb timeFrame "day" then
    before_T (toISOString (now - 24 * 60 * 60 * 1000))
  else if String.eqb timeFrame "week" then
    before_T (toISOString (now - 7 * 24 * 60 * 60 * 1000))
  else if String.eqb timeFrame "month" then
    before_T (toISOString (now - 30 * 24 * 60 * 60 * 1000))
  else
    before_T (toISOString (now - 7 * 24 * 60 * 60 * 1000)).

Close Scope Z_scope.

(** ** Records *)

(** The value of a property that is read but never inspected: a string,
    [null], or [undefined] when the property is missing. *)
Inductive js_value : Type :=
| JUndefined
| JNull
| JString (s : string).

(** The string a value contributes to a concatenation with [+]. *)
Definition ToString (v : js_value) : string :=
  match v with
  | JUndefined => "undefined"
  | JNull => "null"
  | JString s => s
  end.

Record SourceRecord : Type := {
  title : js_value;
  description : js_value;
  url : js_value;
  publishedAt : js_value;
  source : js_value;
  type : string;
  relevanceScore : Q
}.

(** ** The fallback records

    [now] is the reading of the clock in the call; the readings of one
    synchronous run are taken at the same instant. *)
Definition getMockNewsData (query : string) (now : Z) : list SourceRecord :=
  let mockSources := [
    {| title := JString ("Breakthrough " +:+ query +:+
                         " capabilities revolutionize enterprise operations");
       description := JString ("Revolutionary developments in " +:+ query +:+
         " technology demonstrate unprecedented capabilities for automating complex business processes, with Fortune 500 companies reporting 40% efficiency improvements and significant cost reductions across multiple operational domains.");
       url := JString "https://example.com/news/1";
       publishedAt := JString (toISOString now);
       source := JString "Enterprise Tech Daily";
       type := "news";
       relevanceScore := 95 # 100 |};
    {| title := JString (query +:+
                         " market dynamics: Investment surge and competitive repositioning");
       description := JString "Comprehensive market analysis reveals $25B in new investments driving rapid innovation cycles. Leading technology companies announcing strategic partnerships while startups focus on specialized solutions targeting specific industry verticals.";
       url := JString "https://example.com/news/2";
       publishedAt := JString (toISOString (now - 12*60*60*1000));
       source := JString "Market Intelligence Report";
       type := "industry";
       relevanceScore := 92 # 100 |};
    {| title := JString ("Regulatory frameworks evolve to address " +:+ query +:+
                         " implementation challenges");
       description := JString "International regulatory bodies collaborate on comprehensive guidelines addressing privacy, security, and ethical considerations. New compliance frameworks provide clarity for enterprise adoption while ensuring responsible development practices.";
       url := JString "https://example.com/news/3";
       publishedAt := JString (toISOString (now - 18*60*60*1000));
       source := JString "Regulatory Affairs Quarterly";
       type := "news";
       relevanceScore := 89 # 100 |};
    {| title := JString ("Technical architecture innovations enable scalable " +:+ query +:+
                         " deployment");
       description := JString ("Advanced engineering approaches utilizing microservices, containerization, and edge computing architectures enable organizations to deploy " +:+ query +:+
         " solutions at enterprise scale with improved performance and reliability.");
       url := JString "https://example.com/news/4";
       publishedAt := JString (toISOString (now - 24*60*60*1000));
       source := JString "Technical Architecture Review";
       type := "industry";
       relevanceScore := 86 # 100 |};
    {| title := JString ("Global adoption patterns reveal regional " +:+ query +:+
                         " implementation strategies");
       description := JString ("Cross-regional analysis demonstrates varying approaches to " +:+ query +:+
         " adoption, with North American companies emphasizing rapid deployment, European organizations prioritizing compliance, and Asian markets focusing on integration with existing systems.");
       url := JString "https://example.com/news/5";
       publishedAt := JString (toISOString (now - 36*60*60*1000));
       source := JString "Global Technology Trends";
       type := "news";
       relevanceScore := 84 # 100 |};
    {| title := JString ("Industry transformation accelerates through " +:+ query +:+
                         " integration");
       description := JString "Sector-specific implementations demonstrate transformative potential across healthcare, finance, manufacturing, and retail industries. Case studies reveal measurable improvements in operational efficiency, customer satisfaction, and competitive positioning.";
       url := JString "https://example.com/news/6";
       publishedAt := JString (toISOString (now - 48*60*60*1000));
       source := JString "Industry Transformation Weekly";
       type := "industry";
       relevanceScore := 88 # 100 |}
  ] in
  mockSources.

(** ** What one call observes *)

(** An article of the news reply.  [article_source] is [None] when
    [article.source] is [null] or missing, so that reading its [name] throws. *)
Record Article : Type := {
  article_title : js_value;
  article_description : js_value;
  article_url : js_value;
  article_publishedAt : js_value;
  article_source : option js_value
}.

(** [response.data.articles]: [None] when it is not an array; an element is
    [None] when it is [null]. *)
Definition NewsReply : Type := option (list (option Article)).

(** The texts cheerio finds in an [entry] element. *)
Record Entry : Type := {
  entry_title : string;
  entry_summary : string;
  entry_published : string;
  entry_id : string
}.

Inductive request : Type :=
| GET (endpoint : string) (params : list (string * string)).

Record Observed : Type := {
  (** [Date.now()] at the cache check *)
  at_lookup : Z;
  (** [new Date()] when the news request is prepared *)
  at_request : Z;
  (** the reply of [axios.get] to the news request *)
  news_reply : outcome NewsReply;
  (** the clock when the fallback records are made *)
  at_fallback : Z;
  (** the [entry] elements of the reply to the preprint request; [Thrown]
      when [axios.get] or [cheerio.load] throws *)
  arxiv_reply : outcome (list Entry);
  (** [new Date()] when the result set is built *)
  at_build : Z;
  (** [Date.now()] when the result set is stored *)
  at_store : Z
}.

(** ** The news adapter *)

Definition is_configured (env : Env) : bool :=
  match NEWS_API_KEY env with
  | Some k => negb (String.eqb k EmptyString)
  | None => false
  end.

Definition article_record (env : Env) (query : string) (article : option Article)
  : outcome SourceRecord :=
  match article with
  | None => Thrown (TypeError "Cannot read properties of null (reading 'title')")
  | Some a =>
      match article_source a with
      | None => Thrown (TypeError "Cannot read properties of undefined (reading 'name')")
      | Some name =>
          score ← calculateRelevance env
            (ToString (article_title a) +:+ " " +:+ ToString (article_description a)) query;
          Returned {| title := article_title a;
                      description := article_description a;
                      url := article_url a;
                      publishedAt := article_publishedAt a;
                      source := name;
                      type := "news";
                      relevanceScore := score |}
      end
  end.

(** [array.map(f)] for an [f] that can throw. *)
Fixpoint map_throwing {A B : Type} (f : A -> outcome B) (l : list A) : outcome (list B) :=
  match l with
  | [] => Returned []
  | x :: rest =>
      y ← f x;
      ys ← map_throwing f rest;
      Returned (y :: ys)
  end.

Definition news_request (env : Env) (query fromDate : string) : request :=
  GET "https://newsapi.org/v2/everything"
    [("q", query); ("from", fromDate); ("sortBy", "relevancy"); ("language", "en");
     ("pageSize", "20"); ("apiKey", default EmptyString (NEWS_API_KEY env))].

(** The body of the [try] of [searchNewsAPI], once the reply is there. *)
Definition searchNewsAPI_try (env : Env) (obs : Observed) (query : string)
  : outcome (list SourceRecord) :=
  response ← news_reply obs;
  match response with
  | None => Thrown (TypeError "Cannot read properties of undefined (reading 'map')")
  | Some articles => map_throwing (article_record env query) articles
  end.

(** An adapter call: how its promise settles, and the requests it sent. *)
Definition adapter_call : Type := settled (list SourceRecord) * list request.

Definition searchNewsAPI (env : Env) (obs : Observed) (query timeFrame : string)
  : adapter_call :=
  if negb (is_configured env) then
    (settle (Returned (getMockNewsData query (at_fallback obs))), [])
  else
    let fromDate := getDateFromTimeFrame (at_request obs) timeFrame in
    (settle (try_catch (searchNewsAPI_try env obs query)
               (fun error => Returned (getMockNewsData query (at_fallback obs)))),
     [news_request env query fromDate]).

(** ** The preprint adapter *)

Definition entry_record (env : Env) (query : string) (elem : Entry) : outcome SourceRecord :=
  let title := trim (entry_title elem) in
  let summary := trim (entry_summary elem) in
  let published := trim (entry_published elem) in
  let id := trim (entry_id elem) in
  score ← calculateRelevance env (title +:+ " " +:+ summary) query;
  Returned {| title := JString title;
              description := JString (substring0 200 summary +:+ "...");
              url := JString id;
              publishedAt := JString published;
              source := JString "arXiv";
              type := "academic";
              relevanceScore := score |}.

Definition arxiv_request (query : string) : request :=
  GET "http://export.arxiv.org/api/query"
    [("search_query", "all:" +:+ query); ("start", "0"); ("max_results", "5");
     ("sortBy", "submittedDate"); ("sortOrder", "descending")].

Definition searchArxiv_try (env : Env) (obs : Observed) (query : string)
  : outcome (list SourceRecord) :=
  entries ← arxiv_reply obs;
  map_throwing (entry_record env query) entries.

Definition searchArxiv (env : Env) (obs : Observed) (query : string) : adapter_call :=
  (settle (try_catch (searchArxiv_try env obs query) (fun error => Returned [])),
   [arxiv_request query]).

(** ** The aggregator and its cache *)

Record DataSource : Type := {
  isLive : bool;
  hasNewsAPI : bool;
  sources_news : nat;
  sources_academic : nat;
  sources_mock : nat;
  status : string
}.

Record SearchResultSet : Type := {
  results : list SourceRecord;
  totalFound : nat;
  searchQuery : string;
  timeFrame : string;
  timestamp : string;
  dataSource : DataSource
}.

(** A value of the cache map: [{ data, timestamp }]; the time of storing is
    named [cachedAt] here, [timestamp] being the field of the set. *)
Record CacheEntry : Type := {
  data : SearchResultSet;
  cachedAt : Z
}.

Record AIIntelligenceService : Type := {
  cache : gmap string CacheEntry;
  cacheExpiry : Z
}.

(** [new AIIntelligenceService()] *)
Definition constructor : AIIntelligenceService :=
  {| cache := ∅; cacheExpiry := 30 * 60 * 1000 |}.

Definition cacheKey (query timeFrame : string) : string :=
  "search_" +:+ query +:+ "_" +:+ timeFrame.

(** The cache check that opens [searchWebSources]. *)
Definition cache_get (svc : AIIntelligenceService) (query timeFrame : string) (now : Z)
  : option SearchResultSet :=
  match cache svc !! cacheKey query timeFrame with
  | Some cached =>
      if (now - cachedAt cached <? cacheExpiry svc)%Z then Some (data cached) else None
  | None => None
  end.

Definition cache_set (svc : AIIntelligenceService) (query timeFrame : string)
  (d : SearchResultSet) (now : Z) : AIIntelligenceService :=
  {| cache := <[cacheKey query timeFrame := {| data := d; cachedAt := now |}]> (cache svc);
     cacheExpiry := cacheExpiry svc |}.

(** [Promise.allSettled(...)] then [filter(fulfilled).map(value).flat()] *)
Fixpoint fulfilled_flat (settlements : list (settled (list SourceRecord)))
  : list SourceRecord :=
  match settlements with
  | [] => []
  | Fulfilled value :: rest => value ++ fulfilled_flat rest
  | Rejected _ :: rest => fulfilled_flat rest
  end.

(** [Boolean(r)]: a record is an object, and objects are truthy. *)
Definition Boolean (r : SourceRecord) : bool := true.

Definition has_type (t : string) (r : SourceRecord) : bool := String.eqb (type r) t.

(** [newsResults.some(r => !r.url.includes('example.com'))] *)
Fixpoint some_not_example (newsResults : list SourceRecord) : outcome bool :=
  match newsResults with
  | [] => Returned false
  | r :: rest =>
      match url r with
      | JString u =>
          if negb (includes u "example.com") then Returned true
          else some_not_example rest
      | _ => Thrown (TypeError "Cannot read properties of undefined (reading 'includes')")
      end
  end.

(** [r.url && r.url.includes('example.com')] *)
Definition is_mock (r : SourceRecord) : bool :=
  match url r with
  | JString u => negb (String.eqb u EmptyString) && includes u "example.com"
  | _ => false
  end.

(** The statements of the [try] after the adapters have settled. *)
Definition build (env : Env) (obs : Observed) (query timeFrame : string)
  (settlements : list (settled (list SourceRecord))) : outcome SearchResultSet :=
  let processedResults := List.filter Boolean (fulfilled_flat settlements) in
  let hasNewsAPI := is_configured env in
  let newsResults := List.filter (has_type "news") processedResults in
  isLiveData ←
    (if hasNewsAPI && (0 <? length newsResults)%nat
     then some_not_example newsResults else Returned false);
  Returned {|
    results := processedResults;
    totalFound := length processedResults;
    searchQuery := query;
    timeFrame := timeFrame;
    timestamp := toISOString (at_build obs);
    dataSource := {|
      isLive := isLiveData;
      hasNewsAPI := hasNewsAPI;
      sources_news := length newsResults;
      sources_academic := length (List.filter (has_type "academic") processedResults);
      sources_mock := length (List.filter is_mock processedResults);
      status := if isLiveData then "LIVE_DATA" else "MOCK_DATA_DEMO"
    |}
  |}.

(** What a call yields: its result, the service afterwards, the requests sent. *)
Definition search_result : Type :=
  outcome SearchResultSet * AIIntelligenceService * list request.

(** The path of a cache miss: both adapters are called, and when both have
    settled the set is built, stored and returned. *)
Definition regenerate (news arxiv : adapter_call)
  (svc : AIIntelligenceService) (env : Env) (obs : Observed)
  (query timeFrame : string) : search_result :=
  let sent := news.2 ++ arxiv.2 in
  match build env obs query timeFrame [news.1; arxiv.1] with
  | Returned d => (Returned d, cache_set svc query timeFrame d (at_store obs), sent)
  | Thrown error => (Thrown (Error "Search service temporarily unavailable"), svc, sent)
  end.

(** [searchWebSources] over the two adapter calls it awaits.  The methods are
    looked up on [this], so a caller may put other adapters in their place.
    [timeFrame] is the argument once the default ['week'] has been applied; it
    is any string, as the request handler passes it on unchecked. *)
Definition searchWebSources_with (news arxiv : adapter_call)
  (svc : AIIntelligenceService) (env : Env) (obs : Observed)
  (query timeFrame : string) : search_result :=
  match cache_get svc query timeFrame (at_lookup obs) with
  | Some cached_data => (Returned cached_data, svc, [])
  | None => regenerate news arxiv svc env obs query timeFrame
  end.

Definition searchWebSources (svc : AIIntelligenceService) (env : Env) (obs : Observed)
  (query timeFrame : string) : search_result :=
  searchWebSources_with (searchNewsAPI env obs query timeFrame) (searchArxiv env obs query)
    svc env obs query timeFrame.

(** ** The request handlers

    [POST /api/analyze] and [GET /api/trending], the callers of
    [searchWebSources].  The fields of a request body are strings or missing.
    [generateAIAnalysis] fills text templates with the counts of the set and
    with random figures; it is taken as it comes, returning or throwing. *)

Record AnalyzeRequest : Type := {
  req_query : option string;
  req_timeFrame : option string;
  req_analysisDepth : option string;
  req_region : option string
}.

(** What [res.status(...).json(...)] sends. *)
Inductive analyze_response (A : Type) : Type :=
| BadRequest (error : string)
| Analyzed (query timeFrame analysisDepth region : string)
    (searchResults : SearchResultSet) (analysis : A) (timestamp : string)
| AnalysisFailed (error message : string) (timestamp : string).
Arguments BadRequest {A} error.
Arguments Analyzed {A} query timeFrame analysisDepth region searchResults analysis timestamp.
Arguments AnalysisFailed {A} error message timestamp.

Definition status_code {A : Type} (r : analyze_response A) : nat :=
  match r with
  | BadRequest _ => 400
  | Analyzed _ _ _ _ _ _ _ => 200
  | AnalysisFailed _ _ _ => 500
  end.

(** [error.message] *)
Definition message_of (e : js_error) : string :=
  match e with
  | SyntaxError m | TypeError m | RequestError m | Error m => m
  end.

(** What a call of the analyze handler observes beside the search. *)
Record AnalyzeRun (A : Type) : Type := {
  search_run : Observed;
  generateAIAnalysis : SearchResultSet -> string -> string -> outcome A;
  (** [new Date()] when the response is sent *)
  at_response : Z
}.
Arguments search_run {A} _.
Arguments generateAIAnalysis {A} _ _ _ _.
Arguments at_response {A} _.

(** [`${query} ${region}`] unless the region is ['global'] *)
Definition enhancedQuery (query region : string) : string :=
  if negb (String.eqb region "global") then query +:+ " " +:+ region else query.

Definition post_analyze {A : Type} (svc : AIIntelligenceService) (env : Env)
  (run : AnalyzeRun A) (body : AnalyzeRequest)
  : analyze_response A * AIIntelligenceService * list request :=
  let timeFrame := default "week" (req_timeFrame body) in
  let analysisDepth := default "strategic" (req_analysisDepth body) in
  let region := default "global" (req_region body) in
  match req_query body with
  | None => (BadRequest "Query parameter is required", svc, [])
  | Some query =>
      if String.eqb query EmptyString
      then (BadRequest "Query parameter is required", svc, [])
      else
        let enhanced := enhancedQuery query region in
        let failed error :=
          AnalysisFailed "Analysis failed" (message_of error)
            (toISOString (at_response run)) in
        match searchWebSources svc env (search_run run) enhanced timeFrame with
        | (Thrown error, svc1, sent) => (failed error, svc1, sent)
        | (Returned searchResults, svc1, sent) =>
            match generateAIAnalysis run searchResults enhanced analysisDepth with
            | Thrown error => (failed error, svc1, sent)
            | Returned analysis =>
                (Analyzed enhanced timeFrame analysisDepth region searchResults analysis
                   (toISOString (at_response run)), svc1, sent)
            end
        end
  end.

Definition trendingQueries : list string :=
  ["large language models"; "AI regulations"; "open source AI";
   "AI chips semiconductors"; "generative AI startups"].

Record TrendingEntry : Type := {
  trending_query : string;
  trending_count : nat;
  topStory : option SourceRecord
}.

(** What the callback of [trendingQueries.map] returns for a set. *)
Definition trending_entry (query : string) (results_ : SearchResultSet) : TrendingEntry :=
  {| trending_query := query;
     trending_count := totalFound results_;
     topStory := head (results results_) |}.

(** The searches of the callbacks.  Each callback runs up to its first
    [await] before the next one starts, so the cache checks and the requests
    come in the order of the queries; the sets are stored as the replies
    arrive, each under the key of its own query.  [runs i] is what the search
    of the [i]-th query observes. *)
Fixpoint trending_searches (svc : AIIntelligenceService) (env : Env)
  (runs : nat -> Observed) (i : nat) (queries : list string)
  : list (outcome SearchResultSet) * AIIntelligenceService * list request :=
  match queries with
  | [] => ([], svc, [])
  | query :: rest =>
      let '(out, svc1, sent1) := searchWebSources svc env (runs i) query "week" in
      let '(outs, svc2, sent2) := trending_searches svc1 env runs (S i) rest in
      (out :: outs, svc2, sent1 ++ sent2)
  end.

(** [Promise.all]: the values when every promise is fulfilled. *)
Fixpoint all_returned {B : Type} (outs : list (outcome B)) : option (list B) :=
  match outs with
  | [] => Some []
  | Returned b :: rest => cons b <$> all_returned rest
  | Thrown _ :: _ => None
  end.

Inductive trending_response : Type :=
| Trending (trending : list TrendingEntry) (timestamp : string)
| TrendingFailed (error : string).

Definition get_trending (svc : AIIntelligenceService) (env : Env)
  (runs : nat -> Observed) (at_response_ : Z)
  : trending_response * AIIntelligenceService * list request :=
  let '(outs, svc1, sent) := trending_searches svc env runs 0 trendingQueries in
  match all_returned outs with
  | Some sets =>
      (Trending (zip_with trending_entry trendingQueries sets)
         (toISOString at_response_), svc1, sent)
  | None => (TrendingFailed "Failed to fetch trending topics", svc1, sent)
  end.

(** * Sample processes and runs *)

(** A process with no news credential and an engine that rejects every
    pattern outside the fragment. *)
Definition no_credential : Env :=
  {| NEWS_API_KEY := None; RegExp_host := fun _ => None |}.

(** A process with a news credential. *)
Definition with_credential : Env :=
  {| NEWS_API_KEY := Some "0123456789abcdef0123456789abcdef";
     RegExp_host := fun _ => None |}.

(** A run in which both requests fail. *)
Definition offline : Observed :=
  {| at_lookup := 1700000000000;
     at_request := 1700000000001;
     news_reply := Thrown (RequestError "getaddrinfo ENOTFOUND newsapi.org");
     at_fallback := 1700000000002;
     arxiv_reply := Thrown (RequestError "getaddrinfo ENOTFOUND export.arxiv.org");
     at_build := 1700000000003;
     at_store := 1700000000004 |}.

(** The run [o] replayed [minutes] after its set was stored. *)
Definition later (o : Observed) (minutes : Z) : Observed :=
  let now := (at_store o + minutes * 60 * 1000)%Z in
  {| at_lookup := now;
     at_request := now;
     news_reply := news_reply o;
     at_fallback := now;
     arxiv_reply := arxiv_reply o;
     at_build := now;
     at_store := now |}.

Definition article_without_url : Article :=
  {| article_title := JString "GPT-4 Turbo announced at developer day";
     article_description := JString "The new model has a longer context window.";
     article_url := JNull;
     article_publishedAt := JString "2023-11-06T18:00:00Z";
     article_source := Some (JString "The Wire") |}.

(** A run in which the news reply holds one article whose [url] is [null]
    and the preprint request fails. *)
Definition live_without_url : Observed :=
  {| at_lookup := 1700000000000;
     at_request := 1700000000001;
     news_reply := Returned (Some [Some article_without_url]);
     at_fallback := 1700000000002;
     arxiv_reply := Thrown (RequestError "timeout of 10000ms exceeded");
     at_build := 1700000000003;
     at_store := 1700000000004 |}.

Definition article_without_title : Article :=
  {| article_title := JNull;
     article_description := JString "The new model has a longer context window.";
     article_url := JString "https://news.site/2023/11/06/gpt-4-turbo";
     article_publishedAt := JString "2023-11-06T18:00:00Z";
     article_source := Some (JString "The Wire") |}.

(** A run in which the news reply holds one article whose [title] is [null]
    and the preprint reply holds no entry. *)
Definition live_without_title : Observed :=
  {| at_lookup := 1700000000000;
     at_request := 1700000000001;
     news_reply := Returned (Some [Some article_without_title]);
     at_fallback := 1700000000002;
     arxiv_reply := Returned [];
     at_build := 1700000000003;
     at_store := 1700000000004 |}.

Definition short_entry : Entry :=
  {| entry_title := "  Attention Is All You Need ";
     entry_summary := " A short summary. ";
     entry_published := "2017-06-12T17:57:34Z";
     entry_id := "http://arxiv.org/abs/1706.03762v7" |}.

(** Two searches on a new service, ten minutes apart, for two pairs that
    differ in both the query and the time frame. *)
Definition first_search : search_result :=
  searchWebSources constructor no_credential offline "gpt_4" "week".

Definition second_search : search_result :=
  searchWebSources first_search.1.2 no_credential (later offline 10) "gpt" "4_week".

(** The service after a first search for [gpt] in the run [offline]. *)
Definition warm : AIIntelligenceService :=
  (searchWebSources constructor no_credential offline "gpt" "week").1.2.

(** * Predicates of the statements *)


(** A string in which no character belongs to the syntax of patterns. *)
Fixpoint no_syntax_char (s : string) : bool :=
  match s with
  | EmptyString => true
  | String c s' =>
      negb (is_quantifier_char c || is_other_syntax_char c) && no_syntax_char s'
  end.

(** The pattern of such a word: its characters in turn, [.] being any
    character. *)
Fixpoint plain_pattern (s : string) : pattern :=
  match s with
  | EmptyString => []
  | String c s' => Term (to_atom c) Once :: plain_pattern s'
  end.

(** The articles of the reply to the news request of a run; there is a
    request only when a credential is configured. *)
Definition received (env : Env) (obs : Observed) (a : Article) : Prop :=
  is_configured env = true /\
  exists articles, news_reply obs = Returned (Some articles) /\ In (Some a) articles.

(** [title] and [url] are strings. *)
Definition has_strings (r : SourceRecord) : Prop :=
  exists t u, title r = JString t /\ url r = JString u.

(** A fallback record: one of the records of [getMockNewsData]. *)
Definition is_fallback (r : SourceRecord) : Prop :=
  exists query now, In r (getMockNewsData query now).

(** A live news record: a record of type [news] with the [title] and the
    [url] of one of the [upstream] articles, as they came. *)
Definition is_live_news (upstream : Article -> Prop) (r : SourceRecord) : Prop :=
  type r = "news" /\
  exists a, upstream a /\ title r = article_title a /\ url r = article_url a.

(** A record is a fallback record, a record of type [academic], or a live
    news record of an [upstream] article; in the first two cases its [title]
    and [url] are strings. *)
Definition well_formed (upstream : Article -> Prop) (r : SourceRecord) : Prop :=
  (type r = "news" \/ type r = "industry" \/ type r = "academic") /\
  (0 <= relevanceScore r)%Q /\ (relevanceScore r <= 1)%Q /\
  (is_fallback r \/ type r = "academic" \/ is_live_news upstream r) /\
  (is_fallback r \/ type r = "academic" -> has_strings r).

Definition set_ok (upstream : Article -> Prop) (d : SearchResultSet) : Prop :=
  totalFound d = length (results d) /\ Forall (well_formed upstream) (results d).

Definition cache_ok (upstream : Article -> Prop) (svc : AIIntelligenceService) : Prop :=
  map_Forall (fun _ cached => set_ok upstream (data cached)) (cache svc).

(** A record of type [news] whose [title] is [null] and whose [url] is
    missing. *)
Definition untitled_record : SourceRecord :=
  {| title := JNull;
     description := JNull;
     url := JUndefined;
     publishedAt := JNull;
     source := JString "The Wire";
     type := "news";
     relevanceScore := 0 |}.

(** Whether the engine takes the word for a pattern: [new RegExp(word, 'g')]
    returns, and does not throw. *)
Definition is_pattern (env : Env) (word : string) : bool :=
  match parse_pattern word with
  | Pattern _ => true
  | Invalid _ => false
  | Extended =>
      match RegExp_host env word with
      | Some _ => true
      | None => false
      end
  end.

(** The date part of [toISOString]. *)
Definition iso_date (t : Z) : string :=
  let '(y, m, d) := civil_from_days (t / msPerDay) in
  iso_year y +:+ "-" +:+ padded 2 m +:+ "-" +:+ padded 2 d.

(** The days a time frame reaches back. *)
Definition days_back (timeFrame : string) : Z :=
  if String.eqb timeFrame "day" then 1
  else if String.eqb timeFrame "month" then 30
  else 7.

(** Every cached set lies under the key of its own query and time frame. *)
Definition keys_ok (svc : AIIntelligenceService) : Prop :=
  map_Forall (fun k cached =>
                cacheKey (searchQuery (data cached)) (timeFrame (data cached)) = k)
    (cache svc).

(** No cached set has an underscore in its time frame. *)
Definition frames_ok (svc : AIIntelligenceService) : Prop :=
  map_Forall (fun _ cached => includes (timeFrame (data cached)) "_" = false) (cache svc).

(** A string without a space and without a [.]. *)
Fixpoint one_plain_word (s : string) : bool :=
  match s with
  | EmptyString => true
  | String c s' => negb (Ascii.eqb c " ") && negb (Ascii.eqb c ".") && one_plain_word s'
  end.

(** What the mapping of an article keeps of it. *)
Definition record_of_article (env : Env) (query : string) (a : Article) (r : SourceRecord)
  : Prop :=
  title r = article_title a /\ description r = article_description a /\
  url r = article_url a /\ publishedAt r = article_publishedAt a /\
  Some (source r) = article_source a /\ type r = "news" /\
  calculateRelevance env
    (ToString (article_title a) +:+ " " +:+ ToString (article_description a)) query
  = Returned (relevanceScore r).

(** What the mapping of an entry keeps of it. *)
Definition record_of_entry (env : Env) (query : string) (elem : Entry) (r : SourceRecord)
  : Prop :=
  title r = JString (trim (entry_title elem)) /\
  url r = JString (trim (entry_id elem)) /\
  publishedAt r = JString (trim (entry_published elem)) /\
  source r = JString "arXiv" /\ type r = "academic" /\
  calculateRelevance env
    (trim (entry_title elem) +:+ " " +:+ trim (entry_summary elem)) query
  = Returned (relevanceScore r).

(** A run of the analyze handler whose analysis is the number of sources. *)
Definition counting_run (o : Observed) : AnalyzeRun nat :=
  {| search_run := o;
     generateAIAnalysis := fun d _ _ => Returned (totalFound d);
     at_response := at_store o + 1 |}.

Definition two_articles : list Article :=
  [ {| article_title := JString "Quantum computing milestone";
       article_description := JNull;
       article_url := JString "https://news.site/quantum";
       article_publishedAt := JString "2023-11-06T18:00:00Z";
       article_source := Some (JString "The Wire") |};
    {| article_title := JString "Chips for AI";
       article_description := JString "A new accelerator for quantum simulation.";
       article_url := JString "https://news.site/chips";
       article_publishedAt := JString "2023-11-07T09:30:00Z";
       article_source := Some JUndefined |} ].

(** A run in which both replies arrive: two articles and one entry. *)
Definition healthy : Observed :=
  {| at_lookup := 1700000000000;
     at_request := 1700000000001;
     news_reply := Returned (Some (map Some two_articles));
     at_fallback := 1700000000002;
     arxiv_reply := Returned [short_entry];
     at_build := 1700000000003;
     at_store := 1700000000004 |}.

(** The same reply with a [null] among the articles. *)
Definition healthy_but_one : Observed :=
  {| at_lookup := 1700000000000;
     at_request := 1700000000001;
     news_reply := Returned (Some (map Some two_articles ++ [None]));
     at_fallback := 1700000000002;
     arxiv_reply := Returned [short_entry];
     at_build := 1700000000003;
     at_store := 1700000000004 |}.

(** * Properties *)

(** One goal for each record of a list that is written out. *)
Ltac each_record := repeat (apply Forall_cons_2; [| ]); try apply Forall_nil_2.

(** ** Relevance score *)

Section Relevance.

Variable env : Env.

Lemma count_matches_empty_pattern (s : string) :
  count_matches [] s 0 = S (String.length s).
Proof.
  induction s as [|c s IH]; simpl; [reflexivity|].
  now rewrite IH.
Qed.

Lemma split_space_nonempty (s : string) : split_space s <> [].
Proof.
  destruct s as [|c s]; simpl; [discriminate|].
  destruct (Ascii.eqb c " "); [discriminate|].
  destruct (split_space s); discriminate.
Qed.

Lemma split_space_length (s : string) : (1 <= length (split_space s))%nat.
Proof.
  pose proof (split_space_nonempty s) as H.
  destruct (split_space s); [congruence | simpl; lia].
Qed.

Lemma clamp_range (score n : nat) :
  (1 <= n)%nat ->
  let q := Qmin (inject_Z (Z.of_nat score) / inject_Z (Z.of_nat n)) 1 in
  (0 <= q /\ q <= 1)%Q.
Proof.
  intros Hn q. split.
  - apply Q.min_glb; [|discriminate].
    apply Qle_shift_div_l.
    + change 0%Q with (inject_Z 0). rewrite <- Zlt_Qlt. lia.
    + rewrite Qmult_0_l. change 0%Q with (inject_Z 0). rewrite <- Zle_Qle. lia.
  - apply Q.le_min_r.
Qed.

(** Whatever the text and the query, a score that is returned lies in [0, 1]. *)
Lemma calculateRelevance_range (text query : string) (q : Q) :
  calculateRelevance env text query = Returned q -> (0 <= q /\ q <= 1)%Q.
Proof.
  unfold calculateRelevance.
  destruct (forEach_word _ _ _ _) as [score|e]; simpl; [|discriminate].
  intros [= <-]. apply clamp_range, split_space_length.
Qed.

(** A word that the engine rejects makes the whole computation throw. *)
Lemma forEach_word_invalid (word message : string) (rest : list string)
  (textLower : string) (score : nat) :
  parse_pattern word = Invalid message ->
  forEach_word env (word :: rest) textLower score = Thrown (SyntaxError message).
Proof.
  intros H. simpl. unfold matches_of. now rewrite H.
Qed.

(** Away from the syntax of patterns the constructor accepts the word. *)
Lemma parse_pattern_plain (word : string) :
  no_syntax_char word = true -> parse_pattern word = Pattern (plain_pattern word).
Proof.
  induction word as [|c w IH]; [reflexivity|].
  simpl no_syntax_char. intros [Hc Hw]%andb_prop.
  apply negb_true_iff, orb_false_elim in Hc as [Hq Ho].
  assert (Hstep : parse_pattern (String c w)
                  = add_term (to_atom c) Once (parse_pattern w)).
  { simpl. rewrite Hq, Ho. destruct w as [|c1 w1]; [reflexivity|].
    simpl in Hw. apply andb_prop in Hw as [Hc1 _].
    apply negb_true_iff, orb_false_elim in Hc1 as [Hq1 _].
    now rewrite Hq1. }
  rewrite Hstep, (IH Hw). reflexivity.
Qed.

Lemma toLowerCase_char_syntax (c : ascii) :
  is_quantifier_char (toLowerCase_char c) || is_other_syntax_char (toLowerCase_char c)
  = is_quantifier_char c || is_other_syntax_char c.
Proof. destruct c as [[] [] [] [] [] [] [] []]; reflexivity. Qed.

Lemma toLowerCase_no_syntax_char (s : string) :
  no_syntax_char (toLowerCase s) = no_syntax_char s.
Proof.
  induction s as [|c s IH]; [reflexivity|].
  simpl. now rewrite toLowerCase_char_syntax, IH.
Qed.

Lemma split_space_no_syntax_char (s : string) :
  no_syntax_char s = true -> Forall (fun w => no_syntax_char w = true) (split_space s).
Proof.
  induction s as [|c s IH]; simpl.
  - intros _. repeat constructor.
  - intros [Hc Hs]%andb_prop. specialize (IH Hs).
    destruct (Ascii.eqb c " "); [constructor; [reflexivity | exact IH]|].
    destruct (split_space s) as [|w ws]; [repeat constructor; simpl; now rewrite Hc|].
    apply Forall_cons_1 in IH as [Hw Hws].
    constructor; [|exact Hws]. simpl. now rewrite Hc, Hw.
Qed.

Lemma forEach_word_plain (queryWords : list string) (textLower : string) (score : nat) :
  Forall (fun w => no_syntax_char w = true) queryWords ->
  exists total, forEach_word env queryWords textLower score = Returned total.
Proof.
  intros H. revert score.
  induction H as [|w ws Hw _ IH]; intros score; simpl; [eauto|].
  unfold matches_of. rewrite (parse_pattern_plain w Hw). simpl. apply IH.
Qed.

(** A query without a character of the syntax of patterns has a score, which
    lies in [0, 1]. *)
Lemma calculateRelevance_defined (text query : string) :
  no_syntax_char query = true ->
  exists q, calculateRelevance env text query = Returned q /\ (0 <= q /\ q <= 1)%Q.
Proof.
  intros H.
  assert (Hw : Forall (fun w => no_syntax_char w = true) (split_space (toLowerCase query))).
  { apply split_space_no_syntax_char. now rewrite toLowerCase_no_syntax_char. }
  destruct (forEach_word_plain _ (toLowerCase text) 0%nat Hw) as [total Ht].
  unfold calculateRelevance. rewrite Ht. simpl.
  eexists. split; [reflexivity|]. apply clamp_range, split_space_length.
Qed.

(** C2, as the code has it: the empty query is one empty word, whose pattern
    matches at every position of the text; the score is 1 for every text and
    nothing is thrown. *)
Theorem calculateRelevance_empty_query (text : string) :
  exists q, calculateRelevance env text EmptyString = Returned q /\ (q == 1)%Q.
Proof.
  unfold calculateRelevance. simpl. unfold matches_of. simpl.
  rewrite count_matches_empty_pattern. simpl.
  eexists. split; [reflexivity|].
  apply Q.min_r.
  apply Qle_shift_div_l; [reflexivity|].
  rewrite Qmult_1_l. change 1%Q with (inject_Z 1). rewrite <- Zle_Qle. lia.
Qed.

(** C4: the query [c++] is not a regular expression ([+] has nothing to
    repeat), so the score of any text against it is not defined: the
    constructor of the pattern throws. *)
Theorem calculateRelevance_cpp_throws (text : string) :
  calculateRelevance env text "c++" = Thrown (SyntaxError "Nothing to repeat").
Proof.
  unfold calculateRelevance.
  change (split_space (toLowerCase "c++")) with ["c++"].
  now rewrite (forEach_word_invalid "c++" "Nothing to repeat").
Qed.

End Relevance.

(** C2: for the empty query the code returns 1, not 0. *)
Lemma empty_query_scores_one :
  calculateRelevance no_credential "hello world" EmptyString = Returned 1%Q /\ ~ (1 == 0)%Q.
Proof. split; [reflexivity | discriminate]. Qed.

(** A word is a pattern: [a.c] is found in a text that does not contain it. *)
Example pattern_not_literal :
  includes (toLowerCase "abc") "a.c" = false /\
  calculateRelevance no_credential "abc" "a.c" = Returned 1%Q.
Proof. split; reflexivity. Qed.

Example parse_pattern_examples :
  parse_pattern "a.c" = Pattern [Term (AChar "a") Once; Term ADot Once; Term (AChar "c") Once] /\
  parse_pattern "a+?b" = Pattern [Term (AChar "a") (Plus false); Term (AChar "b") Once] /\
  parse_pattern "c++" = Invalid "Nothing to repeat" /\
  parse_pattern "a+??" = Invalid "Nothing to repeat" /\
  parse_pattern "*" = Invalid "Nothing to repeat" /\
  parse_pattern "node(js)" = Extended.
Proof. repeat split. Qed.

(** One of two words found once: a half. *)
Example relevance_half :
  calculateRelevance no_credential "hello world" "Hello foo" = Returned (1 # 2)%Q.
Proof. reflexivity. Qed.

(** The matches of a pattern do not overlap, and an empty match moves the
    search on by one character. *)
Example count_matches_examples :
  count_matches [Term (AChar "a") Once; Term (AChar "a") Once] "aaa" 0 = 1%nat /\
  count_matches [Term (AChar "a") (Plus true)] "aaabaa" 0 = 2%nat /\
  count_matches [Term (AChar "a") (Plus false)] "aaabaa" 0 = 5%nat /\
  count_matches [Term (AChar "a") (Star true)] "aaabaa" 0 = 4%nat.
Proof. repeat split. Qed.

(** ** The adapters *)

Section Adapters.

Variable env : Env.
Variable obs : Observed.

Lemma getMockNewsData_types (query : string) (now : Z) :
  map type (getMockNewsData query now) =
  ["news"; "industry"; "news"; "industry"; "news"; "industry"].
Proof. reflexivity. Qed.

Lemma getMockNewsData_titles (query : string) (now : Z) :
  Forall (fun r => exists before after, title r = JString (before +:+ query +:+ after))
    (getMockNewsData query now).
Proof.
  unfold getMockNewsData.
  each_record; simpl.
  - now exists "Breakthrough ", " capabilities revolutionize enterprise operations".
  - now exists EmptyString, " market dynamics: Investment surge and competitive repositioning".
  - now exists "Regulatory frameworks evolve to address ", " implementation challenges".
  - now exists "Technical architecture innovations enable scalable ", " deployment".
  - now exists "Global adoption patterns reveal regional ", " implementation strategies".
  - now exists "Industry transformation accelerates through ", " integration".
Qed.

(** C3, as the code has it: with no credential the news adapter sends no
    request and fulfils with the six fallback records, whose types alternate
    between [news] and [industry] and whose titles contain the query. *)
Theorem searchNewsAPI_without_credential (query timeFrame : string) :
  is_configured env = false ->
  let fallback := getMockNewsData query (at_fallback obs) in
  searchNewsAPI env obs query timeFrame = (Fulfilled fallback, []) /\
  map type fallback = ["news"; "industry"; "news"; "industry"; "news"; "industry"] /\
  Forall (fun r => exists before after, title r = JString (before +:+ query +:+ after))
    fallback.
Proof.
  intros Hkey fallback. unfold searchNewsAPI. rewrite Hkey. simpl.
  split; [reflexivity|]. split.
  - exact (getMockNewsData_types query (at_fallback obs)).
  - exact (getMockNewsData_titles query (at_fallback obs)).
Qed.

(** The failures the body of each [try] can meet. *)
Lemma searchNewsAPI_try_request_failed (query : string) (e : js_error) :
  news_reply obs = Thrown e -> searchNewsAPI_try env obs query = Thrown e.
Proof. unfold searchNewsAPI_try. now intros ->. Qed.

Lemma searchNewsAPI_try_malformed (query : string) :
  news_reply obs = Returned None -> exists e, searchNewsAPI_try env obs query = Thrown e.
Proof. unfold searchNewsAPI_try. intros ->. simpl. eauto. Qed.

Lemma searchArxiv_try_request_failed (query : string) (e : js_error) :
  arxiv_reply obs = Thrown e -> searchArxiv_try env obs query = Thrown e.
Proof. unfold searchArxiv_try. now intros ->. Qed.

Lemma searchNewsAPI_catches (query timeFrame : string) (e : js_error) :
  searchNewsAPI_try env obs query = Thrown e ->
  (searchNewsAPI env obs query timeFrame).1
  = Fulfilled (getMockNewsData query (at_fallback obs)).
Proof.
  intros H. unfold searchNewsAPI. destruct (is_configured env); simpl; [|reflexivity].
  now rewrite H.
Qed.

(** C8: the promise of either adapter is always fulfilled, never rejected.
    Whenever the body of the [try] throws, the news adapter yields the
    fallback records and the preprint adapter yields the empty array; so it is
    when the request fails (no connection, a status outside 2xx), when the
    news reply has no array of articles, or when the preprint reply cannot be
    parsed. *)
Theorem adapters_never_reject (query timeFrame : string) :
  (exists rs, (searchNewsAPI env obs query timeFrame).1 = Fulfilled rs) /\
  (exists rs, (searchArxiv env obs query).1 = Fulfilled rs) /\
  (forall e, searchNewsAPI_try env obs query = Thrown e ->
     (searchNewsAPI env obs query timeFrame).1
     = Fulfilled (getMockNewsData query (at_fallback obs))) /\
  (forall e, searchArxiv_try env obs query = Thrown e ->
     (searchArxiv env obs query).1 = Fulfilled []) /\
  (forall e, news_reply obs = Thrown e ->
     (searchNewsAPI env obs query timeFrame).1
     = Fulfilled (getMockNewsData query (at_fallback obs))) /\
  (news_reply obs = Returned None ->
     (searchNewsAPI env obs query timeFrame).1
     = Fulfilled (getMockNewsData query (at_fallback obs))) /\
  (forall e, arxiv_reply obs = Thrown e ->
     (searchArxiv env obs query).1 = Fulfilled []).
Proof.
  assert (Hcatch : forall e, searchArxiv_try env obs query = Thrown e ->
                             (searchArxiv env obs query).1 = Fulfilled []).
  { intros e H. unfold searchArxiv. simpl. now rewrite H. }
  split; [|split; [|split; [|split; [|split; [|split]]]]].
  - unfold searchNewsAPI. destruct (is_configured env); simpl; [|eauto].
    destruct (searchNewsAPI_try env obs query); simpl; eauto.
  - unfold searchArxiv. simpl. destruct (searchArxiv_try env obs query); simpl; eauto.
  - intros e. apply searchNewsAPI_catches.
  - exact Hcatch.
  - intros e H. eapply searchNewsAPI_catches, searchNewsAPI_try_request_failed, H.
  - intros H. destruct (searchNewsAPI_try_malformed query H) as [e He].
    eapply searchNewsAPI_catches, He.
  - intros e H. eapply Hcatch, searchArxiv_try_request_failed, H.
Qed.

End Adapters.

(** C3: three of the six fallback records are not of type [news]. *)
Lemma fallback_records_not_all_news :
  exists rs, (searchNewsAPI no_credential offline "quantum computing" "week").1 = Fulfilled rs /\
             ~ Forall (fun r => type r = "news") rs.
Proof.
  eexists. split; [reflexivity|].
  intros H. apply Forall_cons_1 in H as [_ H]. apply Forall_cons_1 in H as [H _].
  discriminate H.
Qed.

Lemma searchNewsAPI_without_credential_witness :
  is_configured no_credential = false /\
  searchNewsAPI no_credential offline "quantum computing" "week"
  = (Fulfilled (getMockNewsData "quantum computing" (at_fallback offline)), []).
Proof.
  split; [reflexivity|].
  apply (searchNewsAPI_without_credential no_credential offline "quantum computing" "week").
  reflexivity.
Defined.

(** With a credential and a failing request the records are the same. *)
Example fallback_after_failure :
  (searchNewsAPI with_credential offline "quantum computing" "week").1
  = (searchNewsAPI no_credential offline "quantum computing" "week").1.
Proof. reflexivity. Qed.

(** A query that is not a pattern turns a healthy news reply into the
    fallback records. *)
Example invalid_pattern_falls_back :
  (searchNewsAPI with_credential live_without_title "c++" "week").1
  = Fulfilled (getMockNewsData "c++" (at_fallback live_without_title)).
Proof. reflexivity. Qed.

(** ** The description of a preprint record *)

Lemma append_length (s1 s2 : string) :
  String.length (s1 +:+ s2) = (String.length s1 + String.length s2)%nat.
Proof. induction s1 as [|c s1 IH]; simpl; [reflexivity | now rewrite IH]. Qed.

Lemma substring0_length (n : nat) (s : string) :
  String.length (substring0 n s) = Nat.min n (String.length s).
Proof.
  unfold substring0. revert s.
  induction n as [|n IH]; intros [|c s]; simpl; try reflexivity.
  now rewrite IH.
Qed.

Lemma substring0_prefix (n : nat) (s : string) :
  exists rest, s = substring0 n s +:+ rest.
Proof.
  unfold substring0. revert s.
  induction n as [|n IH]; intros [|c s]; simpl.
  - now exists EmptyString.
  - now exists (String c s).
  - now exists EmptyString.
  - destruct (IH s) as [rest Hrest]. exists rest.
    change (String c s = String c (String.substring 0 n s +:+ rest)). now f_equal.
Qed.

(** C10: the description of the record made from an entry is the first
    [min 200 (length summary)] characters of the trimmed summary followed by
    ["..."], whatever the length of the summary; it has at most 203
    characters. *)
Theorem entry_record_description (env : Env) (query : string) (elem : Entry)
  (r : SourceRecord) :
  entry_record env query elem = Returned r ->
  let summary := trim (entry_summary elem) in
  exists head rest,
    summary = head +:+ rest /\
    String.length head = Nat.min 200 (String.length summary) /\
    description r = JString (head +:+ "...") /\
    (String.length (head +:+ "...") <= 203)%nat.
Proof.
  intros H summary. unfold entry_record in H. fold summary in H.
  destruct (calculateRelevance _ _ _) as [score|e]; simpl in H; [|discriminate].
  injection H as <-.
  destruct (substring0_prefix 200 summary) as [rest Hrest].
  exists (substring0 200 summary), rest.
  split; [exact Hrest|]. split; [apply substring0_length|]. split; [reflexivity|].
  rewrite append_length, substring0_length.
  change (String.length "...") with 3%nat. lia.
Qed.

Lemma entry_record_description_witness :
  exists r, entry_record no_credential "attention" short_entry = Returned r /\
    exists head rest,
      trim (entry_summary short_entry) = head +:+ rest /\
      String.length head = Nat.min 200 (String.length (trim (entry_summary short_entry))) /\
      description r = JString (head +:+ "...") /\
      (String.length (head +:+ "...") <= 203)%nat.
Proof.
  eexists. split; [reflexivity|].
  apply (entry_record_description no_credential "attention" short_entry).
  reflexivity.
Defined.

(** A summary shorter than 200 characters gets the ellipsis all the same. *)
Example short_summary_gets_ellipsis :
  description <$> entry_record no_credential "attention" short_entry
  = Returned (JString "A short summary....").
Proof. reflexivity. Qed.

(** ** The cache *)

Section Cache.

Variable svc : AIIntelligenceService.
Variable env : Env.
Variable obs : Observed.
Variables query timeFrame : string.




(** After a call that returned a set, the cache holds that set under the key
    of the call. *)
Lemma returned_set_is_cached (news arxiv : adapter_call) (d : SearchResultSet)
  (svc1 : AIIntelligenceService) (sent : list request) :
  searchWebSources_with news arxiv svc env obs query timeFrame = (Returned d, svc1, sent) ->
  exists cached, cache svc1 !! cacheKey query timeFrame = Some cached /\ data cached = d /\
                 cacheExpiry svc1 = cacheExpiry svc.
Proof.
  unfold searchWebSources_with, cache_get, regenerate.
  destruct (cache svc !! cacheKey query timeFrame) as [cached|] eqn:Hc.
  - destruct (_ <? _)%Z.
    + intros [= <- <- <-]. eauto.
    + destruct (build _ _ _ _ _) as [d'|e]; intros [= <- <- <-].
      eexists. simpl. rewrite lookup_insert_eq. eauto.
  - destruct (build _ _ _ _ _) as [d'|e]; intros [= <- <- <-].
    eexists. simpl. rewrite lookup_insert_eq. eauto.
Qed.

(** A set that was built is stored with the time of storing. *)
Lemma regenerate_stores (news arxiv : adapter_call) (d : SearchResultSet)
  (svc1 : AIIntelligenceService) (sent : list request) :
  regenerate news arxiv svc env obs query timeFrame = (Returned d, svc1, sent) ->
  cache svc1 !! cacheKey query timeFrame = Some {| data := d; cachedAt := at_store obs |}.
Proof.
  unfold regenerate.
  destruct (build _ _ _ _ _) as [d'|e]; intros [= <- <- <-].
  simpl. now rewrite lookup_insert_eq.
Qed.

(** C6: when a search has returned a set, a second search for the same query
    and time frame, made while the entry of the key is younger than the
    expiry, returns that very set (so the same timestamp), leaves the service
    as it is and sends no request, whatever the adapters would then reply. *)
Theorem repeated_search_is_a_cache_hit (d : SearchResultSet)
  (svc1 : AIIntelligenceService) (sent : list request) (env2 : Env) (obs2 : Observed) :
  searchWebSources svc env obs query timeFrame = (Returned d, svc1, sent) ->
  (exists cached, cache svc1 !! cacheKey query timeFrame = Some cached /\
                  (at_lookup obs2 - cachedAt cached < cacheExpiry svc1)%Z) ->
  searchWebSources svc1 env2 obs2 query timeFrame = (Returned d, svc1, []).
Proof.
  intros Hfirst (cached & Hc & Hage).
  apply returned_set_is_cached in Hfirst as (cached' & Hc' & Hd & _).
  rewrite Hc in Hc'. injection Hc' as <-.
  unfold searchWebSources, searchWebSources_with, cache_get. rewrite Hc.
  destruct (Z.ltb_spec (at_lookup obs2 - cachedAt cached) (cacheExpiry svc1)); [|lia].
  now rewrite Hd.
Qed.

End Cache.


Lemma repeated_search_is_a_cache_hit_witness :
  exists d svc1 sent,
    searchWebSources constructor no_credential offline "gpt" "week" = (Returned d, svc1, sent) /\
    searchWebSources svc1 with_credential (later live_without_url 29) "gpt" "week"
    = (Returned d, svc1, []).
Proof.
  eexists. eexists. eexists. split; [reflexivity|].
  eapply (repeated_search_is_a_cache_hit constructor no_credential offline "gpt" "week").
  - reflexivity.
  - eexists. split; [reflexivity|]. vm_compute. reflexivity.
Defined.

(** One millisecond before the expiry the entry is still returned; at the
    expiry it is not. *)
Example expiry_boundary :
  let stored := at_store offline in
  is_Some (cache_get warm "gpt" "week" (stored + 30 * 60 * 1000 - 1)) /\
  cache_get warm "gpt" "week" (stored + 30 * 60 * 1000) = None.
Proof. split; [vm_compute; eauto | vm_compute; reflexivity]. Qed.

(** ** Keys of the cache *)

Section Keys.

Variable svc : AIIntelligenceService.

Lemma cache_get_set_same_key (q1 tf1 q2 tf2 : string) (d : SearchResultSet) (t now : Z) :
  cacheKey q1 tf1 = cacheKey q2 tf2 ->
  (now - t < cacheExpiry svc)%Z ->
  cache_get (cache_set svc q1 tf1 d t) q2 tf2 now = Some d.
Proof.
  intros Hk Hage. unfold cache_get, cache_set. simpl.
  rewrite Hk, lookup_insert_eq. simpl.
  destruct (Z.ltb_spec (now - t) (cacheExpiry svc)); [reflexivity | lia].
Qed.

Lemma cache_get_set_other_key (q1 tf1 q2 tf2 : string) (d : SearchResultSet) (t now : Z) :
  cacheKey q1 tf1 <> cacheKey q2 tf2 ->
  cache_get (cache_set svc q1 tf1 d t) q2 tf2 now = cache_get svc q2 tf2 now.
Proof.
  intros Hk. unfold cache_get, cache_set. simpl.
  now rewrite lookup_insert_ne.
Qed.

End Keys.

Lemma includes_here (s t : string) : includes (t +:+ s) t = true.
Proof.
  assert (H : String.prefix t (t +:+ s) = true).
  { induction t as [|c t IH]; simpl; [now destruct s|].
    destruct (ascii_dec c c); [exact IH | congruence]. }
  revert H. generalize (t +:+ s). intros [|c u] H; simpl in *; now rewrite H.
Qed.

Lemma includes_later (c : ascii) (s t : string) :
  includes s t = true -> includes (String c s) t = true.
Proof. intros H. simpl. rewrite H. apply orb_true_r. Qed.

Lemma includes_middle (s1 s2 t : string) : includes (s1 +:+ t +:+ s2) t = true.
Proof.
  induction s1 as [|c s1 IH].
  - change (includes (t +:+ s2) t = true). apply includes_here.
  - change (includes (String c (s1 +:+ t +:+ s2)) t = true). apply includes_later, IH.
Qed.

(** Where the keys do tell the pairs apart: two time frames without an
    underscore, as [day], [week] and [month] are. *)
Lemma cacheKey_injective (q1 tf1 q2 tf2 : string) :
  includes tf1 "_" = false -> includes tf2 "_" = false ->
  cacheKey q1 tf1 = cacheKey q2 tf2 -> q1 = q2 /\ tf1 = tf2.
Proof.
  intros H1 H2 Hk.
  assert (Hq : q1 +:+ String "_" tf1 = q2 +:+ String "_" tf2).
  { unfold cacheKey in Hk. now injection Hk. }
  clear Hk. revert q2 Hq.
  induction q1 as [|c q1 IH]; intros [|c2 q2] Hq.
  - change (String "_" tf1 = String "_" tf2) in Hq. injection Hq as ->. now split.
  - change (String "_" tf1 = String c2 (q2 +:+ String "_" tf2)) in Hq.
    injection Hq as _ ->.
    pose proof (includes_middle q2 tf2 "_") as Hm.
    change (q2 +:+ "_" +:+ tf2) with (q2 +:+ String "_" tf2) in Hm. congruence.
  - change (String c (q1 +:+ String "_" tf1) = String "_" tf2) in Hq.
    injection Hq as _ <-.
    pose proof (includes_middle q1 tf1 "_") as Hm.
    change (q1 +:+ "_" +:+ tf1) with (q1 +:+ String "_" tf1) in Hm. congruence.
  - change (String c (q1 +:+ String "_" tf1) = String c2 (q2 +:+ String "_" tf2)) in Hq.
    injection Hq as -> Hq. destruct (IH q2 Hq) as [-> ->]. now split.
Qed.

(** For such time frames, storing a set for one pair leaves the cache check
    of every other pair as it was. *)
Lemma cache_entries_independent (svc : AIIntelligenceService) (q1 tf1 q2 tf2 : string)
  (d : SearchResultSet) (t now : Z) :
  includes tf1 "_" = false -> includes tf2 "_" = false ->
  (q1, tf1) <> (q2, tf2) ->
  cache_get (cache_set svc q1 tf1 d t) q2 tf2 now = cache_get svc q2 tf2 now.
Proof.
  intros H1 H2 Hne. apply cache_get_set_other_key.
  intros Hk. apply Hne. destruct (cacheKey_injective _ _ _ _ H1 H2 Hk) as [-> ->].
  reflexivity.
Qed.

Example day_week_month_have_no_underscore :
  includes "day" "_" = false /\ includes "week" "_" = false /\ includes "month" "_" = false.
Proof. repeat split. Qed.

(** C1: the key is the concatenation [search_<query>_<timeFrame>], which does
    not tell [("gpt_4", "week")] from [("gpt", "4_week")].  After a search for
    the first pair, a search for the second one ten minutes later is answered
    from the cache with the set of the first, and sends no request. *)
Theorem cache_key_collision :
  ("gpt_4", "week") <> ("gpt", "4_week") /\
  cacheKey "gpt_4" "week" = cacheKey "gpt" "4_week" /\
  second_search = (first_search.1.1, first_search.1.2, []) /\
  searchQuery <$> second_search.1.1 = Returned "gpt_4".
Proof.
  split; [discriminate|]. split; [reflexivity|].
  split; vm_compute; reflexivity.
Qed.

(** ** Building the set from the settled adapters *)

Lemma filter_Boolean (l : list SourceRecord) : List.filter Boolean l = l.
Proof. induction l as [|r l IH]; simpl; [reflexivity | now rewrite IH]. Qed.

Lemma build_results (env : Env) (obs : Observed) (query timeFrame : string)
  (settlements : list (settled (list SourceRecord))) (d : SearchResultSet) :
  build env obs query timeFrame settlements = Returned d ->
  results d = fulfilled_flat settlements /\ totalFound d = length (results d).
Proof.
  unfold build. rewrite filter_Boolean.
  destruct (is_configured env && _); [destruct (some_not_example _) as [live|e]|];
    simpl; try discriminate; intros [= <-]; simpl; split; reflexivity.
Qed.

(** A rejected adapter contributes what an adapter that found nothing does. *)
Lemma build_rejected_as_empty (env : Env) (obs : Observed) (query timeFrame : string)
  (news : settled (list SourceRecord)) (reason : js_error) :
  build env obs query timeFrame [news; Rejected reason]
  = build env obs query timeFrame [news; Fulfilled []].
Proof. reflexivity. Qed.

(** With no credential the set is always built. *)
Lemma build_without_credential (env : Env) (obs : Observed) (query timeFrame : string)
  (settlements : list (settled (list SourceRecord))) :
  is_configured env = false ->
  exists d, build env obs query timeFrame settlements = Returned d.
Proof. intros H. unfold build. rewrite H. simpl. eauto. Qed.

(** The live-data check succeeds when the news records carry a string as
    [url]. *)
Lemma some_not_example_strings (rs : list SourceRecord) :
  Forall (fun r => exists u, url r = JString u) rs ->
  exists b, some_not_example rs = Returned b.
Proof.
  induction 1 as [|r rs [u Hu] _ IH]; simpl; [eauto|].
  rewrite Hu. destruct (negb _); eauto.
Qed.

(** Partial failure: when the preprint adapter rejects and the news adapter
    fulfils with records whose [url] is a string, the search returns exactly
    the news records. *)
Lemma search_survives_rejection (svc : AIIntelligenceService) (env : Env) (obs : Observed)
  (query timeFrame : string) (newsRecords : list SourceRecord) (reason : js_error)
  (sent1 sent2 : list request) :
  Forall (fun r => exists u, url r = JString u) newsRecords ->
  exists d,
    regenerate (Fulfilled newsRecords, sent1) (Rejected reason, sent2)
      svc env obs query timeFrame
    = (Returned d, cache_set svc query timeFrame d (at_store obs), sent1 ++ sent2) /\
    results d = newsRecords /\ totalFound d = length newsRecords.
Proof.
  intros Hurl. unfold regenerate. simpl fst. simpl snd.
  assert (Hb : exists d, build env obs query timeFrame
                           [Fulfilled newsRecords; Rejected reason] = Returned d).
  { unfold build.
    destruct (some_not_example_strings
                (List.filter (has_type "news")
                   (List.filter Boolean
                      (fulfilled_flat [Fulfilled newsRecords; Rejected reason]))))
      as [b Hb].
    - rewrite filter_Boolean. simpl. rewrite app_nil_r.
      rewrite List.Forall_forall in *. intros r Hr.
      apply List.filter_In in Hr as [Hr _]. now apply Hurl.
    - rewrite Hb. destruct (_ && _); simpl; eauto. }
  destruct Hb as [d Hd]. rewrite Hd. exists d. split; [reflexivity|].
  apply build_results in Hd as [Hr Ht]. rewrite Ht, Hr. simpl.
  now rewrite app_nil_r.
Qed.

(** The fallback records are such records. *)
Lemma getMockNewsData_urls (query : string) (now : Z) :
  Forall (fun r => exists u, url r = JString u) (getMockNewsData query now).
Proof.
  unfold getMockNewsData.
  each_record; simpl; eauto.
Qed.

(** With no credential and both requests failing, the search returns the six
    fallback records and nothing else. *)
Example partial_failure_offline :
  exists d,
    (searchWebSources constructor no_credential offline "gpt" "week").1.1 = Returned d /\
    results d = getMockNewsData "gpt" (at_fallback offline) /\
    totalFound d = 6%nat.
Proof. eexists. repeat split. Qed.

(** C7: with a credential, a news reply whose article has no [url] and a
    failing preprint adapter, the news adapter fulfils with one live record,
    but the search is rejected: the live-data check reads [r.url.includes] of
    that record.  This is so whether the preprint adapter absorbs its failure
    or rejects. *)
Theorem search_rejects_on_article_without_url :
  (exists r, (searchNewsAPI with_credential live_without_url "gpt" "week").1 = Fulfilled [r] /\
             type r = "news" /\ url r = JNull) /\
  (searchArxiv with_credential live_without_url "gpt").1 = Fulfilled [] /\
  (searchWebSources constructor with_credential live_without_url "gpt" "week").1.1
  = Thrown (Error "Search service temporarily unavailable") /\
  (forall reason sent,
     (searchWebSources_with (searchNewsAPI with_credential live_without_url "gpt" "week")
        (Rejected reason, sent) constructor with_credential live_without_url "gpt" "week").1.1
     = Thrown (Error "Search service temporarily unavailable")).
Proof.
  split; [eexists; split; [reflexivity | split; reflexivity]|].
  split; [reflexivity|]. split; [reflexivity|].
  intros reason sent. reflexivity.
Qed.

(** ** Records of the returned sets *)

Lemma map_throwing_Forall {A B : Type} (f : A -> outcome B) (P : B -> Prop) :
  (forall x y, f x = Returned y -> P y) ->
  forall l ys, map_throwing f l = Returned ys -> Forall P ys.
Proof.
  intros Hf. induction l as [|x l IH]; simpl; intros ys H.
  - injection H as <-. constructor.
  - destruct (f x) as [y|e] eqn:Hx; simpl in H; [|discriminate].
    destruct (map_throwing f l) as [ys'|e]; simpl in H; [|discriminate].
    injection H as <-. constructor; eauto.
Qed.

Lemma map_throwing_Forall_In {A B : Type} (f : A -> outcome B) (P : B -> Prop)
  (l : list A) :
  (forall x y, In x l -> f x = Returned y -> P y) ->
  forall ys, map_throwing f l = Returned ys -> Forall P ys.
Proof.
  induction l as [|x l IH]; simpl; intros Hf ys H.
  - injection H as <-. constructor.
  - destruct (f x) as [y|e] eqn:Hx; simpl in H; [|discriminate].
    destruct (map_throwing f l) as [ys'|e]; simpl in H; [|discriminate].
    injection H as <-. constructor; eauto.
Qed.

(** What every record of [getMockNewsData] has. *)
Lemma getMockNewsData_records (query : string) (now : Z) (r : SourceRecord) :
  In r (getMockNewsData query now) ->
  has_strings r /\
  (type r = "news" \/ type r = "industry" \/ type r = "academic") /\
  (0 <= relevanceScore r)%Q /\ (relevanceScore r <= 1)%Q.
Proof.
  unfold getMockNewsData. intros Hin.
  repeat (destruct Hin as [<-|Hin];
          [split; [eexists; eexists; split; reflexivity|];
           split; [simpl; tauto|]; split; discriminate|]).
  destruct Hin.
Qed.

Lemma fallback_has_strings (r : SourceRecord) : is_fallback r -> has_strings r.
Proof. intros (query & now & Hin). now apply getMockNewsData_records in Hin. Qed.

Lemma well_formed_mono (upstream upstream' : Article -> Prop) (r : SourceRecord) :
  (forall a, upstream a -> upstream' a) ->
  well_formed upstream r -> well_formed upstream' r.
Proof.
  intros Hsub (Ht & Hlo & Hhi & Hclass & Hs).
  repeat split; auto.
  destruct Hclass as [Hf|[Ha|(Hn & a & Hup & Htitle & Hurl)]]; auto.
  right. right. split; [exact Hn|]. exists a. auto.
Qed.

Lemma set_ok_mono (upstream upstream' : Article -> Prop) (d : SearchResultSet) :
  (forall a, upstream a -> upstream' a) -> set_ok upstream d -> set_ok upstream' d.
Proof.
  intros Hsub [Ht Hr]. split; [exact Ht|].
  eapply Forall_impl; [exact Hr|]. intros r. now apply well_formed_mono.
Qed.

Lemma getMockNewsData_well_formed (upstream : Article -> Prop) (query : string) (now : Z) :
  Forall (well_formed upstream) (getMockNewsData query now).
Proof.
  apply List.Forall_forall. intros r Hin.
  destruct (getMockNewsData_records query now r Hin) as (Hs & Ht & Hlo & Hhi).
  repeat split; auto.
  left. exists query, now. exact Hin.
Qed.

Lemma article_record_well_formed (upstream : Article -> Prop) (env : Env) (query : string)
  (a : Article) (r : SourceRecord) :
  upstream a -> article_record env query (Some a) = Returned r -> well_formed upstream r.
Proof.
  intros Hup H. unfold article_record in H.
  destruct (article_source a) as [name|] eqn:Hs; [|discriminate].
  destruct (calculateRelevance _ _ _) as [score|e] eqn:Hscore; simpl in H; [|discriminate].
  injection H as <-. apply calculateRelevance_range in Hscore as [Hlo Hhi].
  split; [simpl; tauto|]. split; [exact Hlo|]. split; [exact Hhi|]. split.
  - right. right. split; [reflexivity|]. exists a. simpl. auto.
  - intros [Hf|Ha]; [now apply fallback_has_strings | discriminate Ha].
Qed.

Lemma entry_record_well_formed (upstream : Article -> Prop) (env : Env) (query : string)
  (elem : Entry) (r : SourceRecord) :
  entry_record env query elem = Returned r -> well_formed upstream r.
Proof.
  unfold entry_record.
  destruct (calculateRelevance _ _ _) as [score|e] eqn:Hscore; simpl; [|discriminate].
  intros [= <-]. apply calculateRelevance_range in Hscore as [Hlo Hhi].
  split; [simpl; tauto|]. split; [exact Hlo|]. split; [exact Hhi|]. split.
  - right. left. reflexivity.
  - intros _. eexists. eexists. split; reflexivity.
Qed.

Lemma searchNewsAPI_well_formed (env : Env) (obs : Observed) (query timeFrame : string)
  (rs : list SourceRecord) :
  (searchNewsAPI env obs query timeFrame).1 = Fulfilled rs ->
  Forall (well_formed (received env obs)) rs.
Proof.
  unfold searchNewsAPI. destruct (is_configured env) eqn:Hkey; simpl.
  - destruct (searchNewsAPI_try env obs query) as [live|e] eqn:Htry; simpl.
    + intros [= <-]. unfold searchNewsAPI_try in Htry.
      destruct (news_reply obs) as [[articles|]|e] eqn:Hreply; simpl in Htry;
        try discriminate.
      eapply map_throwing_Forall_In; [|exact Htry].
      intros [a|] y Hin Hy; [|discriminate Hy].
      eapply article_record_well_formed; [|exact Hy].
      split; [exact Hkey|]. exists articles. auto.
    + intros [= <-]. apply getMockNewsData_well_formed.
  - intros [= <-]. apply getMockNewsData_well_formed.
Qed.

Lemma searchArxiv_well_formed (upstream : Article -> Prop) (env : Env) (obs : Observed)
  (query : string) (rs : list SourceRecord) :
  (searchArxiv env obs query).1 = Fulfilled rs -> Forall (well_formed upstream) rs.
Proof.
  unfold searchArxiv. simpl.
  destruct (searchArxiv_try env obs query) as [found|e] eqn:Htry; simpl.
  - intros [= <-]. unfold searchArxiv_try in Htry.
    destruct (arxiv_reply obs) as [entries|e]; simpl in Htry; [|discriminate].
    eapply map_throwing_Forall; [|exact Htry].
    intros x y. apply entry_record_well_formed.
  - intros [= <-]. constructor.
Qed.

Lemma cache_ok_constructor : cache_ok (fun _ => False) constructor.
Proof. apply map_Forall_empty. Qed.

(** A record of type [news] that is no fallback record is not well formed
    unless an upstream article has its [title] and [url]. *)
Lemma untitled_record_needs_an_article (upstream : Article -> Prop) :
  well_formed upstream untitled_record <->
  exists a, upstream a /\ article_title a = JNull /\ article_url a = JUndefined.
Proof.
  assert (Hnf : ~ is_fallback untitled_record).
  { intros Hf. apply fallback_has_strings in Hf as (t & u & Ht & _). discriminate Ht. }
  split.
  - intros (_ & _ & _ & [Hf|[Ha|(_ & a & Hup & Ht & Hu)]] & _).
    + contradiction.
    + discriminate Ha.
    + exists a. simpl in Ht, Hu. auto.
  - intros (a & Hup & Ht & Hu).
    split; [simpl; tauto|]. split; [discriminate|]. split; [discriminate|]. split.
    + right. right. split; [reflexivity|]. exists a. simpl. auto.
    + intros [Hf|Ha]; [contradiction | discriminate Ha].
Qed.

(** C9, as the code has it: in every set the aggregator returns, from the
    adapters or from the cache, [totalFound] is the length of [results], and
    every record has one of the types [news], [industry], [academic] and a
    score within [0, 1].  Every record is a fallback record, a record of type
    [academic], or a live news record; [title] and [url] are strings on every
    fallback record and on every record of type [academic], and a live news
    record has the [title] and the [url] of an article that the news service
    sent, as they came.  [upstream] holds the articles of the replies so far:
    none for a new service, and a call adds those of its own reply.  This
    holds of a service whose cached sets are such, and every call keeps the
    cache so. *)
Theorem returned_sets_are_well_formed (upstream : Article -> Prop)
  (svc : AIIntelligenceService) (env : Env) (obs : Observed) (query timeFrame : string) :
  cache_ok upstream svc ->
  let call := searchWebSources svc env obs query timeFrame in
  let upstream' := fun a => upstream a \/ received env obs a in
  (forall d, call.1.1 = Returned d -> set_ok upstream' d) /\ cache_ok upstream' call.1.2.
Proof.
  intros Hcache call upstream'. subst call.
  assert (Hcache' : cache_ok upstream' svc).
  { intros k cached Hk. eapply set_ok_mono; [|exact (Hcache k cached Hk)].
    intros a Ha. left. exact Ha. }
  clear Hcache.
  unfold searchWebSources, searchWebSources_with.
  destruct (cache_get svc query timeFrame (at_lookup obs)) as [cached_data|] eqn:Hget.
  - simpl. split; [|exact Hcache']. intros d [= <-].
    unfold cache_get in Hget.
    destruct (cache svc !! cacheKey query timeFrame) as [cached|] eqn:Hc; [|discriminate].
    destruct (_ <? _)%Z; [|discriminate]. injection Hget as <-.
    exact (Hcache' _ _ Hc).
  - unfold regenerate.
    destruct (build _ _ _ _ _) as [d'|e] eqn:Hb; simpl;
      [|split; [discriminate | exact Hcache']].
    assert (Hd : set_ok upstream' d').
    { apply build_results in Hb as [Hr Ht]. split; [exact Ht|].
      rewrite Hr. clear Hr Ht.
      assert (Hn : forall rs, (searchNewsAPI env obs query timeFrame).1 = Fulfilled rs ->
                              Forall (well_formed upstream') rs).
      { intros rs Hrs. eapply Forall_impl;
          [exact (searchNewsAPI_well_formed env obs query timeFrame rs Hrs)|].
        intros r. apply well_formed_mono. intros a Ha. right. exact Ha. }
      pose proof (searchArxiv_well_formed upstream' env obs query) as Ha.
      destruct (searchNewsAPI env obs query timeFrame).1 as [ns|e1];
        destruct (searchArxiv env obs query).1 as [es|e2]; simpl;
        rewrite ?app_nil_r; try apply Forall_app_2; auto using Forall_nil_2. }
    split; [now intros d [= <-]|].
    unfold cache_ok, cache_set. simpl. apply map_Forall_insert_2; assumption.
Qed.

(** C9: a returned set can hold a record whose [title] is [null]. *)
Lemma returned_record_with_null_title :
  exists d r,
    (searchWebSources constructor with_credential live_without_title "gpt" "week").1.1
    = Returned d /\
    In r (results d) /\ title r = JNull /\ totalFound d = 1%nat.
Proof.
  eexists. eexists. split; [reflexivity|].
  split; [left; reflexivity|]. split; reflexivity.
Qed.

Lemma returned_sets_are_well_formed_witness :
  cache_ok (fun _ => False) constructor /\
  exists d,
    (searchWebSources constructor with_credential live_without_title "gpt" "week").1.1
    = Returned d /\
    set_ok (fun a => False \/ received with_credential live_without_title a) d /\
    cache_ok (fun a => False \/ received with_credential live_without_title a)
      (searchWebSources constructor with_credential live_without_title "gpt" "week").1.2.
Proof.
  split; [exact cache_ok_constructor|].
  destruct (returned_sets_are_well_formed (fun _ => False) constructor with_credential
              live_without_title "gpt" "week" cache_ok_constructor) as [Hset Hcache].
  eexists. split; [reflexivity|]. split; [|exact Hcache].
  apply Hset. reflexivity.
Defined.

(** * Further properties *)

(** ** More on the relevance score *)

Lemma toLowerCase_char_idempotent (c : ascii) :
  toLowerCase_char (toLowerCase_char c) = toLowerCase_char c.
Proof. destruct c as [[] [] [] [] [] [] [] []]; reflexivity. Qed.

Lemma toLowerCase_idempotent (s : string) : toLowerCase (toLowerCase s) = toLowerCase s.
Proof.
  induction s as [|c s IH]; [reflexivity|].
  simpl. now rewrite toLowerCase_char_idempotent, IH.
Qed.

Lemma toLowerCase_length (s : string) : String.length (toLowerCase s) = String.length s.
Proof. induction s as [|c s IH]; simpl; [reflexivity | now rewrite IH]. Qed.

Lemma toLowerCase_char_plain (c : ascii) :
  negb (Ascii.eqb (toLowerCase_char c) " ") && negb (Ascii.eqb (toLowerCase_char c) ".")
  = negb (Ascii.eqb c " ") && negb (Ascii.eqb c ".").
Proof. destruct c as [[] [] [] [] [] [] [] []]; reflexivity. Qed.

Lemma toLowerCase_one_plain_word (s : string) :
  one_plain_word (toLowerCase s) = one_plain_word s.
Proof.
  induction s as [|c s IH]; [reflexivity|].
  simpl. now rewrite toLowerCase_char_plain, IH.
Qed.

Lemma split_space_one_word (s : string) : one_plain_word s = true -> split_space s = [s].
Proof.
  induction s as [|c s IH]; [reflexivity|].
  simpl. intros [[Hsp _]%andb_prop Hs]%andb_prop.
  apply negb_true_iff in Hsp. rewrite Hsp, (IH Hs). reflexivity.
Qed.

Lemma plain_pattern_dot_free (c : ascii) (s : string) :
  one_plain_word (String c s) = true -> to_atom c = AChar c.
Proof.
  simpl. intros [[_ Hdot]%andb_prop _]%andb_prop.
  apply negb_true_iff in Hdot. unfold to_atom. now rewrite Hdot.
Qed.

(** The pattern of a plain word matches where the word is a prefix. *)
Lemma match_here_plain (word s : string) :
  one_plain_word word = true ->
  match_here (plain_pattern word) s
  = if String.prefix word s then Some (String.length word) else None.
Proof.
  revert s. induction word as [|c w IH]; intros s Hw; [now destruct s|].
  pose proof (plain_pattern_dot_free c w Hw) as Hc.
  assert (Hw' : one_plain_word w = true) by (simpl in Hw; now apply andb_prop in Hw).
  simpl. rewrite Hc. destruct s as [|b s]; [reflexivity|]. simpl.
  destruct (ascii_dec c b) as [->|Hne].
  - rewrite Ascii.eqb_refl, (IH s Hw'). now destruct (String.prefix w s).
  - apply Ascii.eqb_neq in Hne. now rewrite Hne.
Qed.

Lemma includes_unfold (s t : string) :
  includes s t = String.prefix t s || match s with
                                      | EmptyString => false
                                      | String _ s' => includes s' t
                                      end.
Proof. destruct s; reflexivity. Qed.

Lemma count_matches_absent (word s : string) (skip : nat) :
  one_plain_word word = true -> includes s word = false ->
  count_matches (plain_pattern word) s skip = 0%nat.
Proof.
  intros Hw. revert skip. induction s as [|b s IH]; intros skip Hin;
    rewrite includes_unfold in Hin; apply orb_false_elim in Hin as [Hp Hrest].
  - destruct skip; simpl; [|reflexivity].
    rewrite (match_here_plain word EmptyString Hw), Hp. reflexivity.
  - destruct skip; simpl; [|now apply IH].
    rewrite (match_here_plain word (String b s) Hw), Hp. now apply IH.
Qed.

Lemma count_matches_present (word s : string) :
  one_plain_word word = true -> includes s word = true ->
  (1 <= count_matches (plain_pattern word) s 0)%nat.
Proof.
  intros Hw. induction s as [|b s IH]; intros Hin;
    rewrite includes_unfold in Hin; simpl;
    rewrite (match_here_plain word _ Hw);
    destruct (String.prefix word _); try lia; simpl in Hin; try discriminate.
  now apply IH.
Qed.

Lemma clamp_at_least_one (score n : nat) :
  (1 <= n)%nat -> (n <= score)%nat ->
  (Qmin (inject_Z (Z.of_nat score) / inject_Z (Z.of_nat n)) 1 == 1)%Q.
Proof.
  intros Hn Hs. apply Q.min_r. apply Qle_shift_div_l.
  - change 0%Q with (inject_Z 0). rewrite <- Zlt_Qlt. lia.
  - rewrite Qmult_1_l. rewrite <- Zle_Qle. lia.
Qed.

(** The words that are no patterns are those on which the count of the
    matches throws, in every text. *)
Lemma is_pattern_matches_of (env : Env) (word textLower : string) :
  is_pattern env word = false <-> exists e, matches_of env word textLower = Thrown e.
Proof.
  unfold is_pattern, matches_of.
  destruct (parse_pattern word) as [p|message|]; [| |destruct (RegExp_host env word)];
    split; try discriminate; eauto; intros [e He]; discriminate He.
Qed.

(** A word with a dangling quantifier is no pattern, whatever the engine
    says of the words outside the fragment. *)
Lemma is_pattern_invalid (env : Env) (word message : string) :
  parse_pattern word = Invalid message -> is_pattern env word = false.
Proof. unfold is_pattern. now intros ->. Qed.

(** A word the engine rejects stops the loop, wherever it stands. *)
Lemma forEach_word_throws (env : Env) (queryWords : list string) (word : string)
  (textLower : string) (score : nat) :
  In word queryWords -> is_pattern env word = false ->
  exists e, forEach_word env queryWords textLower score = Thrown e.
Proof.
  intros Hin Hbad. revert score.
  induction queryWords as [|w ws IH]; intros score; [destruct Hin|].
  simpl. destruct (matches_of env w textLower) as [m|e] eqn:Hm; simpl; [|eauto].
  destruct Hin as [->|Hin]; [|now apply IH].
  apply (is_pattern_matches_of env word textLower) in Hbad as [e He]. congruence.
Qed.

(** The sum of the loop is at least the matches of any one plain word. *)
Lemma forEach_word_at_least (env : Env) (queryWords : list string) (word : string)
  (textLower : string) (score : nat) :
  Forall (fun w => no_syntax_char w = true) queryWords -> In word queryWords ->
  exists total,
    forEach_word env queryWords textLower score = Returned total /\
    (score + count_matches (plain_pattern word) textLower 0 <= total)%nat.
Proof.
  intros Hall. revert score.
  induction Hall as [|w ws Hw Hws IH]; intros score Hin; [destruct Hin|].
  simpl. unfold matches_of. rewrite (parse_pattern_plain w Hw). simpl.
  destruct Hin as [->|Hin].
  - destruct (forEach_word_plain env ws textLower
                (score + count_matches (plain_pattern word) textLower 0) Hws)
      as [total Ht].
    exists total. split; [exact Ht|].
    clear -Ht. revert Ht. generalize (score + count_matches (plain_pattern word) textLower 0)%nat.
    induction ws as [|v vs IHv]; intros acc; simpl.
    + intros [= <-]. lia.
    + destruct (matches_of env v textLower) as [m|e]; simpl; [|discriminate].
      intros H. apply IHv in H. lia.
  - destruct (IH (score + count_matches (plain_pattern w) textLower 0)%nat Hin)
      as (total & Ht & Hle).
    exists total. split; [exact Ht | lia].
Qed.

Section MoreRelevance.

Variable env : Env.

(** X1: the score does not depend on the case of the text or of the query. *)
Theorem calculateRelevance_ignores_case (text query : string) :
  calculateRelevance env text query
  = calculateRelevance env (toLowerCase text) (toLowerCase query).
Proof.
  unfold calculateRelevance. now rewrite !toLowerCase_idempotent.
Qed.

(** X2: for a query that is one plain word (no space, no [.], no character of
    the syntax of patterns) the score is 1 when the text contains the word,
    whatever the case, and 0 when it does not. *)
Theorem calculateRelevance_one_word (text word : string) :
  no_syntax_char word = true -> one_plain_word word = true ->
  exists q,
    calculateRelevance env text word = Returned q /\
    (q == if includes (toLowerCase text) (toLowerCase word) then 1 else 0)%Q.
Proof.
  intros Hs Hw.
  assert (Hs' : no_syntax_char (toLowerCase word) = true)
    by now rewrite toLowerCase_no_syntax_char.
  assert (Hw' : one_plain_word (toLowerCase word) = true)
    by now rewrite toLowerCase_one_plain_word.
  unfold calculateRelevance. rewrite (split_space_one_word _ Hw').
  simpl. unfold matches_of. rewrite (parse_pattern_plain _ Hs'). simpl.
  eexists. split; [reflexivity|].
  destruct (includes (toLowerCase text) (toLowerCase word)) eqn:Hin.
  - apply (clamp_at_least_one _ 1); [lia|].
    now apply count_matches_present.
  - rewrite (count_matches_absent _ _ 0 Hw' Hin). reflexivity.
Qed.

(** X3: when the engine rejects a word of the query, for a dangling
    quantifier, an unbalanced group or class, or anything else that makes
    [new RegExp] throw, no text has a score: the computation throws, wherever
    the word stands in the query. *)
Theorem calculateRelevance_invalid_word (text query word : string) :
  In word (split_space (toLowerCase query)) ->
  is_pattern env word = false ->
  exists e, calculateRelevance env text query = Thrown e.
Proof.
  intros Hin Hbad. unfold calculateRelevance.
  destruct (forEach_word_throws env _ word (toLowerCase text) 0 Hin Hbad)
    as [e He].
  rewrite He. simpl. eauto.
Qed.

(** X4: a query without a character of the syntax of patterns has a score
    against every text, and the score lies in [0, 1]. *)
Theorem calculateRelevance_plain_query (text query : string) :
  no_syntax_char query = true ->
  exists q, calculateRelevance env text query = Returned q /\ (0 <= q /\ q <= 1)%Q.
Proof. apply calculateRelevance_defined. Qed.

(** X5: a stray space in such a query (first, last or doubled) leaves an empty
    word, which matches at every position: the score is 1 for every text that
    has at least as many positions as the query has words. *)
Theorem calculateRelevance_stray_space (text query : string) :
  no_syntax_char query = true ->
  In EmptyString (split_space (toLowerCase query)) ->
  (length (split_space (toLowerCase query)) <= String.length text + 1)%nat ->
  exists q, calculateRelevance env text query = Returned q /\ (q == 1)%Q.
Proof.
  intros Hs Hin Hlen.
  assert (Hw : Forall (fun w => no_syntax_char w = true) (split_space (toLowerCase query))).
  { apply split_space_no_syntax_char. now rewrite toLowerCase_no_syntax_char. }
  destruct (forEach_word_at_least env _ EmptyString (toLowerCase text) 0 Hw Hin)
    as (total & Ht & Hle).
  unfold calculateRelevance. rewrite Ht. simpl.
  eexists. split; [reflexivity|].
  apply clamp_at_least_one; [apply split_space_length|].
  change (plain_pattern EmptyString) with (@nil term) in Hle.
  rewrite count_matches_empty_pattern, toLowerCase_length in Hle. lia.
Qed.

End MoreRelevance.

Lemma calculateRelevance_one_word_witness :
  exists q,
    calculateRelevance no_credential "Quantum Computing today" "QUANTUM" = Returned q /\
    (q == 1)%Q.
Proof.
  apply (calculateRelevance_one_word no_credential "Quantum Computing today" "QUANTUM");
    reflexivity.
Defined.

(** The group of [printf(] is not closed: no engine takes the word for a
    pattern. *)
Lemma calculateRelevance_invalid_word_witness :
  (exists e, calculateRelevance no_credential "Modern C++ compilers" "fast c++ compilers"
             = Thrown e) /\
  (exists e, calculateRelevance no_credential "How to call printf( in C" "call printf("
             = Thrown e).
Proof.
  split.
  - apply (calculateRelevance_invalid_word no_credential _ _ "c++").
    + right. left. reflexivity.
    + reflexivity.
  - apply (calculateRelevance_invalid_word no_credential _ _ "printf(").
    + right. left. reflexivity.
    + reflexivity.
Defined.

Lemma calculateRelevance_plain_query_witness :
  exists q, calculateRelevance no_credential "Quantum Computing today" "quantum chips"
            = Returned q /\ (0 <= q /\ q <= 1)%Q.
Proof.
  apply (calculateRelevance_plain_query no_credential). reflexivity.
Defined.

Lemma calculateRelevance_stray_space_witness :
  exists q, calculateRelevance no_credential "weather" "ai " = Returned q /\ (q == 1)%Q.
Proof.
  apply (calculateRelevance_stray_space no_credential "weather" "ai ").
  - reflexivity.
  - right. left. reflexivity.
  - simpl. lia.
Defined.

(** ** More on the adapters *)

Lemma map_throwing_Forall2 {A B : Type} (f : A -> outcome B) (R : A -> B -> Prop)
  (l : list A) :
  Forall (fun x => exists y, f x = Returned y /\ R x y) l ->
  exists ys, map_throwing f l = Returned ys /\ Forall2 R l ys.
Proof.
  induction 1 as [|x l (y & Hy & Hr) _ (ys & Hys & HR)]; simpl.
  - exists []. split; [reflexivity | constructor].
  - rewrite Hy. simpl. rewrite Hys. simpl.
    exists (y :: ys). split; [reflexivity | now constructor].
Qed.

Lemma map_throwing_throws {A B : Type} (f : A -> outcome B) (l : list A) (x : A)
  (e : js_error) :
  In x l -> f x = Thrown e -> exists e', map_throwing f l = Thrown e'.
Proof.
  intros Hin Hx. induction l as [|a l IH]; [destruct Hin|].
  simpl. destruct (f a) as [y|e1] eqn:Ha; simpl; [|eauto].
  destruct Hin as [->|Hin]; [congruence|].
  destruct (IH Hin) as [e' He']. rewrite He'. simpl. eauto.
Qed.

Lemma article_record_readable (env : Env) (query : string) (a : Article) :
  article_source a <> None -> no_syntax_char query = true ->
  exists r, article_record env query (Some a) = Returned r /\
            record_of_article env query a r.
Proof.
  intros Hsrc Hq. unfold article_record.
  destruct (article_source a) as [name|] eqn:Hs; [|congruence].
  destruct (calculateRelevance_defined env
              (ToString (article_title a) +:+ " " +:+ ToString (article_description a))
              query Hq) as (score & Hscore & _).
  rewrite Hscore. simpl. eexists. split; [reflexivity|].
  unfold record_of_article. simpl. rewrite Hs. repeat split; auto.
Qed.

Lemma entry_record_readable (env : Env) (query : string) (elem : Entry) :
  no_syntax_char query = true ->
  exists r, entry_record env query elem = Returned r /\ record_of_entry env query elem r.
Proof.
  intros Hq. unfold entry_record.
  destruct (calculateRelevance_defined env
              (trim (entry_title elem) +:+ " " +:+ trim (entry_summary elem))
              query Hq) as (score & Hscore & _).
  rewrite Hscore. simpl. eexists. split; [reflexivity|].
  unfold record_of_entry. simpl. repeat split; auto.
Qed.

Lemma article_record_invalid_word (env : Env) (query word : string)
  (article : option Article) :
  In word (split_space (toLowerCase query)) -> is_pattern env word = false ->
  exists e, article_record env query article = Thrown e.
Proof.
  intros Hin Hbad. unfold article_record.
  destruct article as [a|]; [|eauto].
  destruct (article_source a); [|eauto].
  unfold calculateRelevance.
  destruct (forEach_word_throws env _ word
              (toLowerCase (ToString (article_title a) +:+ " " +:+
                            ToString (article_description a))) 0 Hin Hbad) as [e He].
  rewrite He. simpl. eauto.
Qed.

Lemma entry_record_invalid_word (env : Env) (query word : string) (elem : Entry) :
  In word (split_space (toLowerCase query)) -> is_pattern env word = false ->
  exists e, entry_record env query elem = Thrown e.
Proof.
  intros Hin Hbad. unfold entry_record, calculateRelevance.
  destruct (forEach_word_throws env _ word
              (toLowerCase (trim (entry_title elem) +:+ " " +:+
                            trim (entry_summary elem))) 0 Hin Hbad) as [e He].
  rewrite He. simpl. eauto.
Qed.

Lemma searchArxiv_academic (env : Env) (obs : Observed) (query : string)
  (es : list SourceRecord) :
  (searchArxiv env obs query).1 = Fulfilled es -> Forall (fun r => type r = "academic") es.
Proof.
  unfold searchArxiv. simpl.
  destruct (searchArxiv_try env obs query) as [found|e] eqn:Htry; simpl.
  - intros [= <-]. unfold searchArxiv_try in Htry.
    destruct (arxiv_reply obs) as [entries|e]; simpl in Htry; [|discriminate].
    eapply map_throwing_Forall; [|exact Htry].
    intros x y. unfold entry_record.
    destruct (calculateRelevance _ _ _); simpl; [|discriminate]. now intros [= <-].
  - intros [= <-]. constructor.
Qed.

Section MoreAdapters.

Variable env : Env.
Variable obs : Observed.

(** X6: with a credential, a reply whose articles all have a source, and a
    query without a character of the syntax of patterns, the news adapter
    sends one request and fulfils with one record for each article, in the
    order of the reply: the fields of the article as they came, the name of
    the source, the type [news] and the score of the title and description.
    A reply without articles gives no record, not the fallback ones. *)
Theorem searchNewsAPI_maps_the_reply (query timeFrame : string) (articles : list Article) :
  is_configured env = true ->
  news_reply obs = Returned (Some (map Some articles)) ->
  Forall (fun a => article_source a <> None) articles ->
  no_syntax_char query = true ->
  exists rs,
    searchNewsAPI env obs query timeFrame
    = (Fulfilled rs,
       [news_request env query (getDateFromTimeFrame (at_request obs) timeFrame)]) /\
    Forall2 (record_of_article env query) articles rs.
Proof.
  intros Hkey Hreply Hsrc Hq.
  destruct (map_throwing_Forall2 (article_record env query)
              (fun x r => exists a, x = Some a /\ record_of_article env query a r)
              (map Some articles)) as (rs & Hrs & HR).
  { apply Forall_map. eapply Forall_impl; [exact Hsrc|].
    intros a Ha. simpl.
    destruct (article_record_readable env query a Ha Hq) as (r & Hr & Hrel). eauto. }
  exists rs. split.
  - unfold searchNewsAPI, searchNewsAPI_try. rewrite Hkey, Hreply. simpl.
    now rewrite Hrs.
  - apply Forall2_fmap_l in HR. eapply Forall2_impl; [exact HR|].
    intros a r (a' & [= <-] & Hrel). exact Hrel.
Qed.

(** X7: one article that cannot be read, a [null] or one without a source,
    discards the whole reply: the adapter yields the fallback records, however
    many articles of the reply are sound. *)
Theorem searchNewsAPI_one_bad_article (query timeFrame : string)
  (articles : list (option Article)) :
  news_reply obs = Returned (Some articles) ->
  In None articles \/ (exists a, In (Some a) articles /\ article_source a = None) ->
  (searchNewsAPI env obs query timeFrame).1
  = Fulfilled (getMockNewsData query (at_fallback obs)).
Proof.
  intros Hreply Hbad.
  assert (Hthrow : exists e, searchNewsAPI_try env obs query = Thrown e).
  { unfold searchNewsAPI_try. rewrite Hreply. simpl.
    destruct Hbad as [Hnull | (a & Ha & Hsrc)].
    - eapply map_throwing_throws; [exact Hnull | reflexivity].
    - eapply map_throwing_throws; [exact Ha|].
      unfold article_record. rewrite Hsrc. reflexivity. }
  destruct Hthrow as [e He]. eapply searchNewsAPI_catches, He.
Qed.

(** X8: for a query without a character of the syntax of patterns, the
    preprint adapter sends one request, for the five latest entries matching
    [all:<query>], and fulfils with one record for each entry of the reply,
    in order: the trimmed title, identifier and date, the source [arXiv], the
    type [academic] and the score of the title and the whole summary. *)
Theorem searchArxiv_maps_the_reply (query : string) (entries : list Entry) :
  arxiv_reply obs = Returned entries ->
  no_syntax_char query = true ->
  exists rs,
    searchArxiv env obs query
    = (Fulfilled rs,
       [GET "http://export.arxiv.org/api/query"
          [("search_query", "all:" +:+ query); ("start", "0"); ("max_results", "5");
           ("sortBy", "submittedDate"); ("sortOrder", "descending")]]) /\
    Forall2 (record_of_entry env query) entries rs.
Proof.
  intros Hreply Hq.
  destruct (map_throwing_Forall2 (entry_record env query) (record_of_entry env query)
              entries) as (rs & Hrs & HR).
  { apply Forall_forall. intros elem _. now apply entry_record_readable. }
  exists rs. split; [|exact HR].
  unfold searchArxiv, searchArxiv_try. rewrite Hreply. simpl. now rewrite Hrs.
Qed.

(** X9: a query with a word that the engine rejects, whatever the reason
    [new RegExp] throws for, loses every live record: the preprint adapter
    yields the empty array whatever the reply, and the news adapter yields
    the fallback records whenever the reply holds an article. *)
Theorem invalid_word_loses_live_records (query timeFrame word : string) :
  In word (split_space (toLowerCase query)) ->
  is_pattern env word = false ->
  (searchArxiv env obs query).1 = Fulfilled [] /\
  (forall articles,
     news_reply obs = Returned (Some articles) -> articles <> [] ->
     (searchNewsAPI env obs query timeFrame).1
     = Fulfilled (getMockNewsData query (at_fallback obs))).
Proof.
  intros Hin Hbad. split.
  - unfold searchArxiv, searchArxiv_try. simpl.
    destruct (arxiv_reply obs) as [[|elem entries]|e]; simpl; try reflexivity.
    destruct (entry_record_invalid_word env query word elem Hin Hbad) as [e He].
    rewrite He. reflexivity.
  - intros [|article articles] Hreply Hne; [congruence|].
    destruct (article_record_invalid_word env query word article Hin Hbad)
      as [e He].
    eapply searchNewsAPI_catches. unfold searchNewsAPI_try. rewrite Hreply. simpl.
    rewrite He. reflexivity.
Qed.

End MoreAdapters.

Lemma searchNewsAPI_maps_the_reply_witness :
  exists rs,
    searchNewsAPI with_credential healthy "quantum" "day"
    = (Fulfilled rs,
       [news_request with_credential "quantum"
          (getDateFromTimeFrame (at_request healthy) "day")]) /\
    Forall2 (record_of_article with_credential "quantum") two_articles rs.
Proof.
  apply (searchNewsAPI_maps_the_reply with_credential healthy "quantum" "day" two_articles).
  - reflexivity.
  - reflexivity.
  - repeat constructor; discriminate.
  - reflexivity.
Defined.

Lemma searchNewsAPI_one_bad_article_witness :
  (searchNewsAPI with_credential healthy_but_one "quantum" "day").1
  = Fulfilled (getMockNewsData "quantum" (at_fallback healthy_but_one)).
Proof.
  apply (searchNewsAPI_one_bad_article with_credential healthy_but_one "quantum" "day"
           (map Some two_articles ++ [None])).
  - reflexivity.
  - left. right. right. left. reflexivity.
Defined.

Lemma searchArxiv_maps_the_reply_witness :
  exists rs,
    (searchArxiv no_credential healthy "attention").1 = Fulfilled rs /\
    Forall2 (record_of_entry no_credential "attention") [short_entry] rs.
Proof.
  destruct (searchArxiv_maps_the_reply no_credential healthy "attention" [short_entry]
              eq_refl eq_refl) as (rs & Hrs & HR).
  exists rs. split; [now rewrite Hrs | exact HR].
Defined.

Lemma invalid_word_loses_live_records_witness :
  ((searchArxiv with_credential healthy "c++").1 = Fulfilled [] /\
   (searchNewsAPI with_credential healthy "c++" "day").1
   = Fulfilled (getMockNewsData "c++" (at_fallback healthy))) /\
  ((searchArxiv with_credential healthy "printf(").1 = Fulfilled [] /\
   (searchNewsAPI with_credential healthy "printf(" "day").1
   = Fulfilled (getMockNewsData "printf(" (at_fallback healthy))).
Proof.
  split.
  - destruct (invalid_word_loses_live_records with_credential healthy "c++" "day" "c++")
      as [Ha Hn].
    + left. reflexivity.
    + reflexivity.
    + split; [exact Ha|].
      apply (Hn (map Some two_articles)); [reflexivity | discriminate].
  - destruct (invalid_word_loses_live_records with_credential healthy "printf(" "day"
                "printf(") as [Ha Hn].
    + left. reflexivity.
    + reflexivity.
    + split; [exact Ha|].
      apply (Hn (map Some two_articles)); [reflexivity | discriminate].
Defined.

Example live_records_of_the_healthy_run :
  map relevanceScore
    (match (searchNewsAPI with_credential healthy "quantum" "day").1 with
     | Fulfilled rs => rs
     | Rejected _ => []
     end)
  = [1%Q; 1%Q].
Proof. reflexivity. Qed.

(** ** More on the aggregator *)

Lemma adapters_fulfil (env : Env) (obs : Observed) (query timeFrame : string) :
  exists ns es,
    (searchNewsAPI env obs query timeFrame).1 = Fulfilled ns /\
    (searchArxiv env obs query).1 = Fulfilled es.
Proof.
  unfold searchNewsAPI, searchArxiv. simpl.
  destruct (is_configured env); simpl;
    [destruct (searchNewsAPI_try env obs query); simpl|];
    destruct (searchArxiv_try env obs query); simpl; eauto.
Qed.

Lemma build_fields (env : Env) (obs : Observed) (query timeFrame_ : string)
  (settlements : list (settled (list SourceRecord))) (d : SearchResultSet) :
  build env obs query timeFrame_ settlements = Returned d ->
  searchQuery d = query /\ timeFrame d = timeFrame_ /\
  timestamp d = toISOString (at_build obs).
Proof.
  unfold build.
  destruct (is_configured env && _); [destruct (some_not_example _) as [live|e]|];
    simpl; try discriminate; intros [= <-]; simpl; repeat split; reflexivity.
Qed.

(** The two ways a call can go. *)
Lemma searchWebSources_cases (svc : AIIntelligenceService) (env : Env) (obs : Observed)
  (query timeFrame_ : string) :
  let call := searchWebSources svc env obs query timeFrame_ in
  let settlements := [(searchNewsAPI env obs query timeFrame_).1;
                      (searchArxiv env obs query).1] in
  let sent := (searchNewsAPI env obs query timeFrame_).2 ++ (searchArxiv env obs query).2 in
  (exists d, cache_get svc query timeFrame_ (at_lookup obs) = Some d /\
             call = (Returned d, svc, [])) \/
  (cache_get svc query timeFrame_ (at_lookup obs) = None /\
   ((exists d, build env obs query timeFrame_ settlements = Returned d /\
               call = (Returned d, cache_set svc query timeFrame_ d (at_store obs), sent)) \/
    (exists e, build env obs query timeFrame_ settlements = Thrown e /\
               call = (Thrown (Error "Search service temporarily unavailable"), svc, sent)))).
Proof.
  simpl. unfold searchWebSources, searchWebSources_with.
  destruct (cache_get svc query timeFrame_ (at_lookup obs)) as [d|]; [left; eauto|].
  right. split; [reflexivity|]. unfold regenerate.
  destruct (build _ _ _ _ _) as [d|e]; [left | right]; eauto.
Qed.

Lemma filter_news_academic (es : list SourceRecord) :
  Forall (fun r => type r = "academic") es -> List.filter (has_type "news") es = [].
Proof.
  induction 1 as [|r es Hr _ IH]; [reflexivity|].
  simpl. unfold has_type at 1. rewrite Hr. exact IH.
Qed.

Lemma some_not_example_true (rs : list SourceRecord) :
  some_not_example rs = Returned true ->
  exists r u, In r rs /\ url r = JString u /\ includes u "example.com" = false.
Proof.
  induction rs as [|r rs IH]; simpl; [discriminate|].
  destruct (url r) as [| |u] eqn:Hu; try discriminate.
  destruct (includes u "example.com") eqn:Hin; simpl.
  - intros H. destruct (IH H) as (r' & u' & Hr' & Hu' & Hin'). eauto 8.
  - intros _. eauto 8.
Qed.

Lemma build_not_live (env : Env) (obs : Observed) (query timeFrame_ : string)
  (ns es : list SourceRecord) :
  some_not_example (List.filter (has_type "news") ns) = Returned false ->
  List.filter (has_type "news") es = [] ->
  exists d,
    build env obs query timeFrame_ [Fulfilled ns; Fulfilled es] = Returned d /\
    results d = ns ++ es /\
    isLive (dataSource d) = false /\
    status (dataSource d) = "MOCK_DATA_DEMO" /\
    sources_news (dataSource d) = length (List.filter (has_type "news") ns).
Proof.
  intros Hns Hes. unfold build. rewrite filter_Boolean.
  cbn [fulfilled_flat]. rewrite app_nil_r, List.filter_app, Hes, app_nil_r, Hns.
  destruct (is_configured env && _); simpl; eexists; repeat split; reflexivity.
Qed.

Lemma service_eq (svc1 svc2 : AIIntelligenceService) :
  cache svc1 = cache svc2 -> cacheExpiry svc1 = cacheExpiry svc2 -> svc1 = svc2.
Proof. destruct svc1, svc2. simpl. now intros -> ->. Qed.

(** What a call does to the service: nothing, or one [cache.set]. *)
Lemma searchWebSources_effect (svc svc' : AIIntelligenceService) (env : Env)
  (obs : Observed) (query timeFrame_ : string) :
  cache svc !! cacheKey query timeFrame_ = cache svc' !! cacheKey query timeFrame_ ->
  cacheExpiry svc = cacheExpiry svc' ->
  let call := searchWebSources svc env obs query timeFrame_ in
  let call' := searchWebSources svc' env obs query timeFrame_ in
  call.1.1 = call'.1.1 /\ call.2 = call'.2 /\
  ((call.1.2 = svc /\ call'.1.2 = svc') \/
   (exists d, call.1.2 = cache_set svc query timeFrame_ d (at_store obs) /\
              call'.1.2 = cache_set svc' query timeFrame_ d (at_store obs))).
Proof.
  intros Hk He. simpl.
  unfold searchWebSources, searchWebSources_with, cache_get. rewrite <- Hk, <- He.
  destruct (cache svc !! cacheKey query timeFrame_) as [cached|].
  - destruct (_ <? _)%Z; [simpl; auto|].
    unfold regenerate. destruct (build _ _ _ _ _); simpl; eauto 8.
  - unfold regenerate. destruct (build _ _ _ _ _); simpl; eauto 8.
Qed.

(** A call leaves the expiry and the entries of the other keys alone. *)
Lemma searchWebSources_frame (svc : AIIntelligenceService) (env : Env) (obs : Observed)
  (query timeFrame_ : string) :
  let svc1 := (searchWebSources svc env obs query timeFrame_).1.2 in
  cacheExpiry svc1 = cacheExpiry svc /\
  (forall k, k <> cacheKey query timeFrame_ -> cache svc1 !! k = cache svc !! k).
Proof.
  destruct (searchWebSources_effect svc svc env obs query timeFrame_ eq_refl eq_refl)
    as (_ & _ & [[H _] | (d & H & _)]); simpl; rewrite H.
  - split; auto.
  - unfold cache_set. simpl. split; [reflexivity|].
    intros k Hk. now rewrite lookup_insert_ne.
Qed.


Section MoreAggregator.

Variable svc : AIIntelligenceService.
Variable env : Env.
Variable obs : Observed.
Variables query timeFrame_ : string.

(** X10: a set that is built holds the records of the news adapter followed
    by those of the preprint adapter, each in its own order and not sorted by
    score; it counts them all, repeats the query and the time frame of the
    call, and is stamped with the time of building. *)
Theorem fresh_set_is_news_then_preprints (d : SearchResultSet) :
  cache_get svc query timeFrame_ (at_lookup obs) = None ->
  (searchWebSources svc env obs query timeFrame_).1.1 = Returned d ->
  exists ns es,
    (searchNewsAPI env obs query timeFrame_).1 = Fulfilled ns /\
    (searchArxiv env obs query).1 = Fulfilled es /\
    results d = ns ++ es /\
    totalFound d = (length ns + length es)%nat /\
    searchQuery d = query /\ timeFrame d = timeFrame_ /\
    timestamp d = toISOString (at_build obs).
Proof.
  intros Hmiss Hret.
  destruct (searchWebSources_cases svc env obs query timeFrame_)
    as [(d0 & Hhit & _) | (_ & [(d0 & Hb & Hcall) | (e & _ & Hcall)])];
    [congruence | | rewrite Hcall in Hret; discriminate].
  rewrite Hcall in Hret. injection Hret as <-.
  destruct (adapters_fulfil env obs query timeFrame_) as (ns & es & Hn & Ha).
  exists ns, es. rewrite Hn, Ha in Hb.
  destruct (build_results _ _ _ _ _ _ Hb) as [Hr Ht].
  destruct (build_fields _ _ _ _ _ _ Hb) as (Hq & Hf & Hs).
  simpl in Hr. rewrite app_nil_r in Hr.
  repeat split; auto. now rewrite Ht, Hr, length_app.
Qed.

(** X11: a search that fails throws the one error ['Search service
    temporarily unavailable'], whatever went wrong inside, and leaves the
    cache as it was; and it can only fail when a news credential is
    configured. *)
Theorem search_failure_is_generic (e : js_error) :
  (searchWebSources svc env obs query timeFrame_).1.1 = Thrown e ->
  e = Error "Search service temporarily unavailable" /\
  (searchWebSources svc env obs query timeFrame_).1.2 = svc /\
  is_configured env = true.
Proof.
  intros Hthrow.
  destruct (searchWebSources_cases svc env obs query timeFrame_)
    as [(d0 & _ & Hcall) | (_ & [(d0 & _ & Hcall) | (e0 & Hb & Hcall)])];
    rewrite Hcall in *; cbn [fst snd] in *; try discriminate.
  injection Hthrow as <-. repeat split.
  destruct (is_configured env) eqn:Hkey; [reflexivity|].
  destruct (build_without_credential env obs query timeFrame_
              [(searchNewsAPI env obs query timeFrame_).1; (searchArxiv env obs query).1]
              Hkey) as [d Hd].
  congruence.
Qed.

(** X12: a call changes at most the entry of its own key: the entries of the
    other keys and the expiry stay as they were, and no entry is ever
    removed, not even an expired one. *)
Theorem search_touches_one_key :
  let svc1 := (searchWebSources svc env obs query timeFrame_).1.2 in
  cacheExpiry svc1 = cacheExpiry svc /\
  (forall k, k <> cacheKey query timeFrame_ -> cache svc1 !! k = cache svc !! k) /\
  dom (cache svc) ⊆ dom (cache svc1).
Proof.
  destruct (searchWebSources_frame svc env obs query timeFrame_) as [He Hf].
  split; [exact He|]. split; [exact Hf|].
  destruct (searchWebSources_effect svc svc env obs query timeFrame_ eq_refl eq_refl)
    as (_ & _ & [[H _] | (d & H & _)]); simpl; rewrite H; [reflexivity|].
  unfold cache_set. simpl. rewrite dom_insert_L. set_solver.
Qed.

(** X13: on a service whose cached sets lie under their own keys and have
    time frames without an underscore, a call with such a time frame keeps the
    cache so and, when it returns a set, returns one made for its own query
    and time frame: [searchQuery] and [timeFrame] repeat the arguments, from
    the cache as from the adapters. *)
Theorem returned_set_repeats_the_call :
  keys_ok svc -> frames_ok svc -> includes timeFrame_ "_" = false ->
  let call := searchWebSources svc env obs query timeFrame_ in
  keys_ok call.1.2 /\ frames_ok call.1.2 /\
  (forall d, call.1.1 = Returned d -> searchQuery d = query /\ timeFrame d = timeFrame_).
Proof.
  intros Hkeys Hframes Htf. simpl.
  destruct (searchWebSources_cases svc env obs query timeFrame_)
    as [(d0 & Hhit & Hcall) | (_ & [(d0 & Hb & Hcall) | (e0 & _ & Hcall)])];
    rewrite Hcall; simpl.
  - split; [exact Hkeys|]. split; [exact Hframes|]. intros d [= <-].
    unfold cache_get in Hhit.
    destruct (cache svc !! cacheKey query timeFrame_) as [cached|] eqn:Hc; [|discriminate].
    destruct (_ <? _)%Z; [|discriminate]. injection Hhit as <-.
    apply (cacheKey_injective _ _ _ _ (Hframes _ _ Hc) Htf (Hkeys _ _ Hc)).
  - destruct (build_fields _ _ _ _ _ _ Hb) as (Hq & Hf & _).
    split; [|split].
    + apply map_Forall_insert_2; [simpl; now rewrite Hq, Hf | exact Hkeys].
    + apply map_Forall_insert_2; [simpl; now rewrite Hf | exact Hframes].
    + intros d [= <-]. now split.
  - split; [exact Hkeys|]. split; [exact Hframes|]. discriminate.
Qed.

(** X14: when the news adapter yields the fallback records, with or without a
    credential, the search does not fail, and the set says so: it is not
    live, its status is [MOCK_DATA_DEMO], and three of its records count as
    news. *)
Theorem fallback_is_reported_as_mock :
  cache_get svc query timeFrame_ (at_lookup obs) = None ->
  (searchNewsAPI env obs query timeFrame_).1
  = Fulfilled (getMockNewsData query (at_fallback obs)) ->
  exists d es,
    (searchWebSources svc env obs query timeFrame_).1.1 = Returned d /\
    (searchArxiv env obs query).1 = Fulfilled es /\
    results d = getMockNewsData query (at_fallback obs) ++ es /\
    isLive (dataSource d) = false /\
    status (dataSource d) = "MOCK_DATA_DEMO" /\
    sources_news (dataSource d) = 3%nat.
Proof.
  intros Hmiss Hnews.
  destruct (adapters_fulfil env obs query timeFrame_) as (ns & es & _ & Ha).
  pose proof (filter_news_academic es (searchArxiv_academic env obs query es Ha)) as Hes.
  destruct (build_not_live env obs query timeFrame_
              (getMockNewsData query (at_fallback obs)) es eq_refl Hes)
    as (d & Hb & Hr & Hlive & Hstatus & Hcount).
  exists d, es.
  unfold searchWebSources, searchWebSources_with. rewrite Hmiss.
  unfold regenerate. rewrite Hnews, Ha, Hb. simpl. repeat split; auto.
Qed.

(** X15: a set that is built is reported live only when a credential is
    configured and one of its records of type [news] has a [url] that does
    not contain [example.com]; and the status is [LIVE_DATA] exactly when the
    set is live. *)
Theorem live_needs_a_live_record (d : SearchResultSet) :
  cache_get svc query timeFrame_ (at_lookup obs) = None ->
  (searchWebSources svc env obs query timeFrame_).1.1 = Returned d ->
  (status (dataSource d) = "LIVE_DATA" <-> isLive (dataSource d) = true) /\
  (isLive (dataSource d) = true ->
   is_configured env = true /\
   exists r u, In r (results d) /\ type r = "news" /\ url r = JString u /\
               includes u "example.com" = false).
Proof.
  intros Hmiss Hret.
  destruct (searchWebSources_cases svc env obs query timeFrame_)
    as [(d0 & Hhit & _) | (_ & [(d0 & Hb & Hcall) | (e & _ & Hcall)])];
    [congruence | | rewrite Hcall in Hret; discriminate].
  rewrite Hcall in Hret. injection Hret as <-. clear Hcall.
  unfold build in Hb.
  destruct (is_configured env && _) eqn:Hguard.
  - destruct (some_not_example _) as [live|e] eqn:Hsome; [|discriminate].
    simpl in Hb. injection Hb as <-. simpl. split.
    + destruct live; split; intros H; try reflexivity; discriminate.
    + intros ->. apply andb_prop in Hguard as [Hkey _]. split; [exact Hkey|].
      apply some_not_example_true in Hsome as (r & u & Hr & Hu & Hin).
      apply List.filter_In in Hr as [Hr Ht].
      exists r, u. repeat split; auto. now apply String.eqb_eq in Ht.
  - simpl in Hb. injection Hb as <-. simpl. split; [|discriminate].
    split; discriminate.
Qed.

(** X16: a set that has just been built and stored is what the cache check of
    its key finds at every later time before the expiry, and at no time from
    the expiry on. *)
Theorem fresh_set_is_served_until_expiry (d : SearchResultSet) (now : Z) :
  cache_get svc query timeFrame_ (at_lookup obs) = None ->
  (searchWebSources svc env obs query timeFrame_).1.1 = Returned d ->
  cache_get (searchWebSources svc env obs query timeFrame_).1.2 query timeFrame_ now
  = if (now - at_store obs <? cacheExpiry svc)%Z then Some d else None.
Proof.
  intros Hmiss Hret.
  destruct (searchWebSources_cases svc env obs query timeFrame_)
    as [(d0 & Hhit & _) | (_ & [(d0 & Hb & Hcall) | (e & _ & Hcall)])];
    [congruence | | rewrite Hcall in Hret; discriminate].
  rewrite Hcall in *. injection Hret as <-. simpl.
  unfold cache_get, cache_set. simpl. now rewrite lookup_insert_eq.
Qed.

End MoreAggregator.

(** X17: two searches whose keys differ do not interfere: in either order
    they return the same results and send the same requests, and they leave
    the same cache. *)
Theorem searches_of_distinct_keys_commute (svc : AIIntelligenceService)
  (env1 env2 : Env) (obs1 obs2 : Observed) (q1 tf1 q2 tf2 : string) :
  cacheKey q1 tf1 <> cacheKey q2 tf2 ->
  let a := searchWebSources svc env1 obs1 q1 tf1 in
  let b := searchWebSources a.1.2 env2 obs2 q2 tf2 in
  let b' := searchWebSources svc env2 obs2 q2 tf2 in
  let a' := searchWebSources b'.1.2 env1 obs1 q1 tf1 in
  a.1.1 = a'.1.1 /\ a.2 = a'.2 /\ b.1.1 = b'.1.1 /\ b.2 = b'.2 /\ b.1.2 = a'.1.2.
Proof.
  intros Hne. simpl.
  destruct (searchWebSources_frame svc env1 obs1 q1 tf1) as (He1 & Hf1).
  destruct (searchWebSources_frame svc env2 obs2 q2 tf2) as (He2 & Hf2).
  destruct (searchWebSources_effect svc
              (searchWebSources svc env2 obs2 q2 tf2).1.2 env1 obs1 q1 tf1)
    as (Ha1 & Ha2 & Ha3); [symmetry; apply Hf2; congruence | congruence |].
  destruct (searchWebSources_effect (searchWebSources svc env1 obs1 q1 tf1).1.2
              svc env2 obs2 q2 tf2)
    as (Hb1 & Hb2 & Hb3); [apply Hf1; congruence | congruence |].
  repeat split; auto.
  destruct Ha3 as [[Ha Ha'] | (da & Ha & Ha')], Hb3 as [[Hb Hb'] | (db & Hb & Hb')];
    rewrite ?Ha', ?Hb; rewrite ?Ha, ?Hb'; try reflexivity.
  apply service_eq; simpl; [|reflexivity].
  apply insert_insert_ne. congruence.
Qed.

(** ** The date floor of the news request *)

Lemma append_assoc (a b c : string) : (a +:+ b) +:+ c = a +:+ (b +:+ c).
Proof.
  induction a as [|x a IH]; [reflexivity|].
  change (String x ((a +:+ b) +:+ c) = String x (a +:+ (b +:+ c))). now rewrite IH.
Qed.

Lemma digit_is_not_T (n : Z) : Ascii.eqb (digit n) "T" = false.
Proof.
  unfold digit.
  assert (H : (Z.to_nat (n mod 10) < 10)%nat)
    by (pose proof (Z.mod_pos_bound n 10); lia).
  remember (Z.to_nat (n mod 10)) as k eqn:Hk. clear Hk.
  do 10 (destruct k as [|k]; [reflexivity|]). lia.
Qed.

Lemma before_T_cons (c : ascii) (s : string) :
  Ascii.eqb c "T" = false -> before_T (String c s) = String c (before_T s).
Proof. intros H. simpl. now rewrite H. Qed.

Lemma append_cons (c : ascii) (s t : string) : String c s +:+ t = String c (s +:+ t).
Proof. reflexivity. Qed.

Lemma append_nil (t : string) : EmptyString +:+ t = t.
Proof. reflexivity. Qed.

Lemma append_empty_r (s : string) : s +:+ EmptyString = s.
Proof.
  induction s as [|c s IH]; [reflexivity|].
  rewrite append_cons. now f_equal.
Qed.

Lemma before_T_padded (width : nat) (n : Z) (rest : string) :
  before_T (padded width n +:+ rest) = padded width n +:+ before_T rest.
Proof.
  revert n rest. induction width as [|w IH]; intros n rest; [reflexivity|].
  change (padded (S w) n) with (padded w (n / 10) +:+ String (digit n) EmptyString).
  rewrite !append_assoc, IH, !append_cons, !append_nil.
  now rewrite (before_T_cons _ _ (digit_is_not_T n)).
Qed.

Lemma before_T_iso_year (y : Z) (rest : string) :
  before_T (iso_year y +:+ rest) = iso_year y +:+ before_T rest.
Proof.
  unfold iso_year. destruct (_ && _); [apply before_T_padded|].
  rewrite !append_assoc.
  destruct (y <? 0)%Z; rewrite !append_cons, !append_nil, before_T_cons, before_T_padded;
    reflexivity.
Qed.

Lemma before_T_toISOString (t : Z) : before_T (toISOString t) = iso_date t.
Proof.
  unfold toISOString, iso_date.
  destruct (civil_from_days (t / msPerDay)) as [[y m] d].
  rewrite before_T_iso_year, append_cons, append_nil, before_T_cons by reflexivity.
  rewrite before_T_padded, append_cons, append_nil, before_T_cons by reflexivity.
  rewrite before_T_padded, append_cons, append_nil.
  change (before_T (String "T" ?x)) with EmptyString.
  now rewrite append_empty_r.
Qed.

(** X18: the date floor is the calendar date, year-month-day and nothing of
    the time, of the instant one day before now for the time frame [day],
    thirty days for [month], and seven days for [week] and for every other
    time frame. *)
Theorem getDateFromTimeFrame_date (now : Z) (timeFrame_ : string) :
  getDateFromTimeFrame now timeFrame_ = iso_date (now - days_back timeFrame_ * msPerDay).
Proof.
  unfold getDateFromTimeFrame, days_back.
  destruct (String.eqb timeFrame_ "day") eqn:Hd; [apply before_T_toISOString|].
  destruct (String.eqb timeFrame_ "week") eqn:Hw.
  - apply String.eqb_eq in Hw. subst. apply before_T_toISOString.
  - destruct (String.eqb timeFrame_ "month"); apply before_T_toISOString.
Qed.

Example date_floors :
  getDateFromTimeFrame 1709251200000 "day" = "2024-02-29" /\
  getDateFromTimeFrame 1709251200000 "week" = "2024-02-23" /\
  getDateFromTimeFrame 1709251200000 "month" = "2024-01-31" /\
  getDateFromTimeFrame 1709251200000 "year" = "2024-02-23".
Proof. repeat split. Qed.

(** ** The request handlers *)

Section Handlers.

Context {A : Type}.
Variable svc : AIIntelligenceService.
Variable env : Env.
Variable run : AnalyzeRun A.
Variable body : AnalyzeRequest.


End Handlers.

Lemma search_without_credential (svc : AIIntelligenceService) (env : Env) (obs : Observed)
  (query timeFrame_ : string) :
  is_configured env = false ->
  exists d, (searchWebSources svc env obs query timeFrame_).1.1 = Returned d.
Proof.
  intros Hkey.
  destruct (searchWebSources_cases svc env obs query timeFrame_)
    as [(d0 & _ & Hcall) | (_ & [(d0 & _ & Hcall) | (e0 & Hb & Hcall)])];
    try (rewrite Hcall; simpl; eauto; fail).
  destruct (build_without_credential env obs query timeFrame_
              [(searchNewsAPI env obs query timeFrame_).1; (searchArxiv env obs query).1]
              Hkey) as [d Hd].
  congruence.
Qed.

Lemma enhanced_query_not_empty (query region : string) :
  query <> EmptyString -> String.eqb (enhancedQuery query region) EmptyString = false.
Proof.
  intros Hq. unfold enhancedQuery.
  destruct (negb _); destruct query; try congruence; reflexivity.
Qed.


(** X22: the region is only a suffix of the query.  A request for a query
    and a region other than [global] makes the search, leaves the cache and
    sends the requests of the request for the query followed by a space and
    the region, with no region; the two answers have the same status. *)
Theorem post_analyze_region_is_a_suffix {A : Type} (svc : AIIntelligenceService)
  (env : Env) (run : AnalyzeRun A) (query region : string)
  (tf depth : option string) :
  query <> EmptyString -> region <> "global" ->
  let with_region :=
    post_analyze svc env run
      {| req_query := Some query; req_timeFrame := tf;
         req_analysisDepth := depth; req_region := Some region |} in
  let in_query :=
    post_analyze svc env run
      {| req_query := Some (query +:+ " " +:+ region); req_timeFrame := tf;
         req_analysisDepth := depth; req_region := None |} in
  with_region.1.2 = in_query.1.2 /\ with_region.2 = in_query.2 /\
  status_code with_region.1.1 = status_code in_query.1.1.
Proof.
  intros Hq Hr. simpl. unfold post_analyze. simpl.
  assert (H1 : enhancedQuery query region = query +:+ " " +:+ region).
  { unfold enhancedQuery. apply String.eqb_neq in Hr. now rewrite Hr. }
  assert (H2 : String.eqb (query +:+ " " +:+ region) EmptyString = false)
    by (destruct query; [congruence | reflexivity]).
  destruct (String.eqb_spec query EmptyString) as [|_]; [contradiction|].
  rewrite H2, H1.
  change (enhancedQuery (query +:+ " " +:+ region) "global")
    with (query +:+ " " +:+ region).
  destruct (searchWebSources _ _ _ _ _) as [[[d|e] svc1] sent]; [|now simpl].
  destruct (generateAIAnalysis _ _ _ _); now simpl.
Qed.

(** ** The trending handler *)

Lemma trending_searches_without_credential (svc : AIIntelligenceService) (env : Env)
  (runs : nat -> Observed) (i : nat) (queries : list string) :
  is_configured env = false ->
  exists sets,
    (trending_searches svc env runs i queries).1.1 = map Returned sets /\
    length sets = length queries.
Proof.
  intros Hkey. revert svc i.
  induction queries as [|q qs IH]; intros svc i; simpl; [now exists []|].
  destruct (search_without_credential svc env (runs i) q "week" Hkey) as [d Hd].
  destruct (searchWebSources svc env (runs i) q "week") as [[out svc1] sent1].
  simpl in Hd. subst out.
  destruct (IH svc1 (S i)) as (sets & Hs & Hlen).
  destruct (trending_searches svc1 env runs (S i) qs) as [[outs svc2] sent2].
  simpl in *. exists (d :: sets). simpl. now rewrite Hs, Hlen.
Qed.

Lemma all_returned_map {B : Type} (l : list B) : all_returned (map Returned l) = Some l.
Proof. induction l as [|b l IH]; simpl; [reflexivity | now rewrite IH]. Qed.

Lemma zip_with_trending_queries (queries : list string) (sets : list SearchResultSet) :
  length sets = length queries ->
  map trending_query (zip_with trending_entry queries sets) = queries.
Proof.
  revert sets. induction queries as [|q qs IH]; intros [|d ds] Hlen;
    try discriminate; [reflexivity|].
  simpl. f_equal. apply IH. now injection Hlen.
Qed.

(** X23: without a credential the trending handler never answers 500: it
    answers with one entry for each of the five topics, in their order. *)
Theorem get_trending_without_credential (svc : AIIntelligenceService) (env : Env)
  (runs : nat -> Observed) (now : Z) :
  is_configured env = false ->
  exists entries,
    (get_trending svc env runs now).1.1 = Trending entries (toISOString now) /\
    map trending_query entries = trendingQueries /\
    length entries = 5%nat.
Proof.
  intros Hkey. unfold get_trending.
  destruct (trending_searches_without_credential svc env runs 0 trendingQueries Hkey)
    as (sets & Hs & Hlen).
  destruct (trending_searches svc env runs 0 trendingQueries) as [[outs svc1] sent].
  simpl in Hs. subst outs. rewrite all_returned_map.
  exists (zip_with trending_entry trendingQueries sets). split; [reflexivity|].
  pose proof (zip_with_trending_queries trendingQueries sets Hlen) as Hq.
  split; [exact Hq|]. now rewrite <- (length_map trending_query), Hq.
Qed.

Lemma trending_searches_frame (svc : AIIntelligenceService) (env : Env)
  (runs : nat -> Observed) (i : nat) (queries : list string) :
  let svc1 := (trending_searches svc env runs i queries).1.2 in
  cacheExpiry svc1 = cacheExpiry svc /\
  (forall k, ~ In k (map (fun q => cacheKey q "week") queries) ->
             cache svc1 !! k = cache svc !! k).
Proof.
  revert svc i. induction queries as [|q qs IH]; intros svc i; simpl; [auto|].
  destruct (searchWebSources_frame svc env (runs i) q "week") as [He Hf].
  destruct (searchWebSources svc env (runs i) q "week") as [[out svc1] sent1].
  destruct (IH svc1 (S i)) as [He' Hf'].
  destruct (trending_searches svc1 env runs (S i) qs) as [[outs svc2] sent2].
  simpl in *. split; [congruence|].
  intros k Hk. rewrite Hf', Hf; auto.
Qed.

(** After the searches, every set that was returned lies under its key. *)
Lemma trending_searches_cached (svc : AIIntelligenceService) (env : Env)
  (runs : nat -> Observed) (i : nat) (queries : list string) :
  List.NoDup (map (fun q => cacheKey q "week") queries) ->
  let done := trending_searches svc env runs i queries in
  Forall2 (fun q out => forall d, out = Returned d ->
             exists cached, cache done.1.2 !! cacheKey q "week" = Some cached /\
                            data cached = d)
    queries done.1.1.
Proof.
  revert svc i. induction queries as [|q qs IH]; intros svc i Hnd; simpl; [constructor|].
  apply List.NoDup_cons_iff in Hnd as [Hq Hnd].
  pose proof (returned_set_is_cached svc env (runs i) q "week"
                (searchNewsAPI env (runs i) q "week") (searchArxiv env (runs i) q)) as Hc.
  fold (searchWebSources svc env (runs i) q "week") in Hc.
  destruct (searchWebSources svc env (runs i) q "week") as [[out svc1] sent1].
  pose proof (trending_searches_frame svc1 env runs (S i) qs) as [_ Hf].
  specialize (IH svc1 (S i) Hnd).
  destruct (trending_searches svc1 env runs (S i) qs) as [[outs svc2] sent2].
  simpl in *. constructor; [|exact IH].
  intros d ->. destruct (Hc d svc1 sent1 eq_refl) as (cached & Hlook & Hd & _).
  exists cached. split; [|exact Hd]. now rewrite Hf.
Qed.

(** Searches that all find a young entry return the cached sets. *)
Lemma trending_searches_hits (svc : AIIntelligenceService) (env : Env)
  (runs : nat -> Observed) (i : nat) (queries : list string)
  (sets : list SearchResultSet) :
  Forall2 (fun q d => exists cached,
             cache svc !! cacheKey q "week" = Some cached /\ data cached = d /\
             forall j, (at_lookup (runs j) - cachedAt cached < cacheExpiry svc)%Z)
    queries sets ->
  trending_searches svc env runs i queries = (map Returned sets, svc, []).
Proof.
  intros H. revert i. induction H as [|q d qs ds (cached & Hc & Hd & Hage) _ IH];
    intros i; simpl; [reflexivity|].
  unfold searchWebSources, searchWebSources_with, cache_get. rewrite Hc.
  destruct (Z.ltb_spec (at_lookup (runs i) - cachedAt cached) (cacheExpiry svc)) as [_|Hge];
    [|specialize (Hage i); lia].
  rewrite (IH (S i)), Hd. reflexivity.
Qed.

Lemma all_returned_some {B : Type} (outs : list (outcome B)) (l : list B) :
  all_returned outs = Some l -> outs = map Returned l.
Proof.
  revert l. induction outs as [|[b|e] outs IH]; intros l; simpl.
  - now intros [= <-].
  - destruct (all_returned outs) as [l'|]; simpl; [|discriminate].
    intros [= <-]. simpl. now rewrite (IH l' eq_refl).
  - discriminate.
Qed.

Lemma trending_keys_differ :
  List.NoDup (map (fun q => cacheKey q "week") trendingQueries).
Proof.
  repeat (apply List.NoDup_cons; [simpl; intuition discriminate|]).
  apply List.NoDup_nil.
Qed.

(** X24: when the trending handler has answered with its entries, a second
    call made while the five entries of the cache are younger than the expiry
    answers with the same entries, sends no request and leaves the cache as
    it is, whatever the adapters would then reply. *)
Theorem get_trending_again (svc : AIIntelligenceService) (env env2 : Env)
  (runs runs2 : nat -> Observed) (now now2 : Z)
  (entries : list TrendingEntry) (stamp : string)
  (svc1 : AIIntelligenceService) (sent : list request) :
  get_trending svc env runs now = (Trending entries stamp, svc1, sent) ->
  (forall q cached j,
     In q trendingQueries -> cache svc1 !! cacheKey q "week" = Some cached ->
     (at_lookup (runs2 j) - cachedAt cached < cacheExpiry svc1)%Z) ->
  get_trending svc1 env2 runs2 now2 = (Trending entries (toISOString now2), svc1, []).
Proof.
  intros Hfirst Hyoung. unfold get_trending in *.
  pose proof (trending_searches_cached svc env runs 0 trendingQueries trending_keys_differ)
    as Hcached.
  destruct (trending_searches svc env runs 0 trendingQueries) as [[outs svc'] sent'].
  destruct (all_returned outs) as [sets|] eqn:Hall; [|discriminate].
  injection Hfirst as <- _ -> _. apply all_returned_some in Hall as ->.
  cbn [fst snd] in Hcached. apply Forall2_fmap_r in Hcached.
  rewrite (trending_searches_hits svc1 env2 runs2 0 trendingQueries sets).
  - now rewrite all_returned_map.
  - assert (Hgen : forall qs ds,
             Forall2 (fun q y => forall d, Returned y = Returned d ->
                        exists cached, cache svc1 !! cacheKey q "week" = Some cached /\
                                       data cached = d) qs ds ->
             (forall q, In q qs -> In q trendingQueries) ->
             Forall2 (fun q d => exists cached,
                        cache svc1 !! cacheKey q "week" = Some cached /\ data cached = d /\
                        forall j, (at_lookup (runs2 j) - cachedAt cached
                                   < cacheExpiry svc1)%Z) qs ds).
    { induction 1 as [|q d qs ds Hq _ IH]; intros Hin; constructor.
      - destruct (Hq d eq_refl) as (cached & Hc & Hd).
        exists cached. repeat split; auto.
        intros j. apply (Hyoung q cached j); [apply Hin; now left | exact Hc].
      - apply IH. intros q' Hq'. apply Hin. now right. }
    apply Hgen; [exact Hcached | auto].
Qed.

(** ** The further properties at work *)

Lemma fresh_set_is_news_then_preprints_witness :
  exists d ns es,
    (searchWebSources constructor with_credential healthy "quantum" "day").1.1 = Returned d /\
    (searchNewsAPI with_credential healthy "quantum" "day").1 = Fulfilled ns /\
    (searchArxiv with_credential healthy "quantum").1 = Fulfilled es /\
    results d = ns ++ es /\ totalFound d = 3%nat /\ searchQuery d = "quantum".
Proof.
  destruct (fresh_set_is_news_then_preprints constructor with_credential healthy
              "quantum" "day" _ eq_refl eq_refl)
    as (ns & es & Hn & Ha & Hr & Ht & Hq & _).
  eexists. exists ns, es. split; [reflexivity|]. repeat split; auto.
Defined.

Lemma search_failure_is_generic_witness :
  (searchWebSources constructor with_credential live_without_url "gpt" "week").1.1
  = Thrown (Error "Search service temporarily unavailable") /\
  (searchWebSources constructor with_credential live_without_url "gpt" "week").1.2
  = constructor.
Proof.
  destruct (search_failure_is_generic constructor with_credential live_without_url
              "gpt" "week" _ eq_refl) as (_ & Hsvc & _).
  split; [reflexivity | exact Hsvc].
Defined.

Lemma returned_set_repeats_the_call_witness :
  keys_ok constructor /\ frames_ok constructor /\
  exists d,
    (searchWebSources constructor no_credential offline "gpt" "week").1.1 = Returned d /\
    searchQuery d = "gpt" /\ timeFrame d = "week".
Proof.
  assert (Hk : keys_ok constructor) by apply map_Forall_empty.
  assert (Hf : frames_ok constructor) by apply map_Forall_empty.
  split; [exact Hk|]. split; [exact Hf|].
  destruct (returned_set_repeats_the_call constructor no_credential offline "gpt" "week"
              Hk Hf eq_refl) as (_ & _ & Hd).
  eexists. split; [reflexivity|]. apply Hd. reflexivity.
Defined.

Lemma fallback_is_reported_as_mock_witness :
  exists d,
    (searchWebSources constructor with_credential offline "gpt" "week").1.1 = Returned d /\
    isLive (dataSource d) = false /\ status (dataSource d) = "MOCK_DATA_DEMO".
Proof.
  destruct (fallback_is_reported_as_mock constructor with_credential offline "gpt" "week"
              eq_refl eq_refl) as (d & es & Hd & _ & _ & Hlive & Hstatus & _).
  exists d. auto.
Defined.

Lemma live_needs_a_live_record_witness :
  exists d,
    (searchWebSources constructor with_credential healthy "quantum" "day").1.1 = Returned d /\
    isLive (dataSource d) = true /\ status (dataSource d) = "LIVE_DATA" /\
    exists r u, In r (results d) /\ type r = "news" /\ url r = JString u /\
                includes u "example.com" = false.
Proof.
  eexists. split; [reflexivity|].
  destruct (live_needs_a_live_record constructor with_credential healthy "quantum" "day"
              _ eq_refl eq_refl) as [Hs Hl].
  split; [reflexivity|]. split; [reflexivity|]. apply Hl. reflexivity.
Defined.

Lemma fresh_set_is_served_until_expiry_witness :
  exists d,
    (searchWebSources constructor no_credential offline "gpt" "week").1.1 = Returned d /\
    cache_get warm "gpt" "week" (at_store offline + 29 * 60 * 1000) = Some d /\
    cache_get warm "gpt" "week" (at_store offline + 30 * 60 * 1000) = None.
Proof.
  eexists. split; [reflexivity|]. split.
  - exact (fresh_set_is_served_until_expiry constructor no_credential offline "gpt" "week"
             _ (at_store offline + 29 * 60 * 1000) eq_refl eq_refl).
  - exact (fresh_set_is_served_until_expiry constructor no_credential offline "gpt" "week"
             _ (at_store offline + 30 * 60 * 1000) eq_refl eq_refl).
Defined.

Lemma searches_of_distinct_keys_commute_witness :
  cacheKey "gpt" "week" <> cacheKey "gpt" "day" /\
  (searchWebSources
     (searchWebSources constructor no_credential offline "gpt" "week").1.2
     with_credential healthy "gpt" "day").1.2
  = (searchWebSources
       (searchWebSources constructor with_credential healthy "gpt" "day").1.2
       no_credential offline "gpt" "week").1.2.
Proof.
  assert (Hne : cacheKey "gpt" "week" <> cacheKey "gpt" "day") by discriminate.
  split; [exact Hne|].
  apply (searches_of_distinct_keys_commute constructor no_credential with_credential
           offline healthy "gpt" "week" "gpt" "day" Hne).
Defined.



Lemma post_analyze_region_is_a_suffix_witness :
  (post_analyze constructor no_credential (counting_run offline)
     {| req_query := Some "chips"; req_timeFrame := None;
        req_analysisDepth := None; req_region := Some "europe" |}).1.2
  = (post_analyze constructor no_credential (counting_run offline)
       {| req_query := Some "chips europe"; req_timeFrame := None;
          req_analysisDepth := None; req_region := None |}).1.2.
Proof.
  apply (post_analyze_region_is_a_suffix constructor no_credential (counting_run offline)
           "chips" "europe" None None); discriminate.
Defined.

Lemma get_trending_without_credential_witness :
  exists entries,
    (get_trending constructor no_credential (fun _ => offline) 1700000000005).1.1
    = Trending entries (toISOString 1700000000005) /\
    map trending_query entries = trendingQueries /\ length entries = 5%nat.
Proof.
  apply (get_trending_without_credential constructor no_credential (fun _ => offline)).
  reflexivity.
Defined.

Lemma get_trending_again_witness :
  exists entries stamp svc1 sent,
    get_trending constructor no_credential (fun _ => offline) 1700000000005
    = (Trending entries stamp, svc1, sent) /\
    get_trending svc1 with_credential (fun _ => later healthy 10) 1700000600005
    = (Trending entries (toISOString 1700000600005), svc1, []).
Proof.
  do 4 eexists. split; [reflexivity|].
  eapply (get_trending_again constructor no_credential with_credential
            (fun _ => offline) (fun _ => later healthy 10) 1700000000005).
  - reflexivity.
  - intros q cached j Hin Hc.
    repeat (destruct Hin as [<-|Hin];
            [vm_compute in Hc; injection Hc as <-; vm_compute; reflexivity|]).
    destruct Hin.
Defined.

Example trending_offline :
  match (get_trending constructor no_credential (fun _ => offline) 1700000000005).1.1 with
  | Trending entries _ =>
      map trending_count entries = [6; 6; 6; 6; 6]%nat /\
      map (fun e => title <$> topStory e) entries
      = map (fun q => Some (JString ("Breakthrough " +:+ q +:+
                                     " capabilities revolutionize enterprise operations")))
          trendingQueries
  | TrendingFailed _ => False
  end.
Proof. split; reflexivity. Qed.
